(** * lxclib: the container lifecycle of [lxclib/main.py]

    A shallow embedding of class [Container]: the state probe, the
    supervised ([systemd-run]) delegated commands, the lifecycle operations
    [stop], [start], [create], [destroy], [restart], [attach], the parser
    of [info] and the catalogue functions [list_all] and [list_info].

    Conventions of the model.
    - Bytes and text are both [string] (8-bit characters); a decoded text
      is kept in its UTF-8 form.  What [lxc-info] printed is decoded by
      [decode], which raises [UnicodeDecodeError] on bytes that are not
      UTF-8; the names printed by [lxc-ls] and the output attached to a
      [SystemdRunError] are taken as ASCII text.  [upper], [lower] and
      [strip] act on the ASCII range as Python's do, and the theorems about
      the content of an output state that it is ASCII where they need it.
    - The host is a value [w : W].  [lxc-info] and [lxc-ls] are run through
      [subprocess.check_output] and only read the host ([inspect]); the
      commands run under [systemd-run] may change it ([spawn]).
    - A Python exception is a value of [Exception]; an operation returns
      [Returns a] or [Raises e] together with the host it leaves and the
      delegated commands it has issued so far. *)

From Stdlib Require Import ZArith Ascii String List Bool.
From stdpp Require Import base list strings gmap fin_maps.

Local Open Scope string_scope.
Local Open Scope list_scope.

(** ** Python's [str] methods used by the module *)

Module Str.

Definition code (c : ascii) : N := N_of_ascii c.

(** [str.isspace] on the ASCII range: TAB, LF, VT, FF, CR, FS, GS, RS,
    US and the space. *)
Definition isspace (c : ascii) : bool :=
  let n := code c in
  ((9 <=? n) && (n <=? 13) || (28 <=? n) && (n <=? 32))%N.

Definition upper_char (c : ascii) : ascii :=
  let n := code c in
  if ((97 <=? n) && (n <=? 122))%N then ascii_of_N (n - 32) else c.

Definition lower_char (c : ascii) : ascii :=
  let n := code c in
  if ((65 <=? n) && (n <=? 90))%N then ascii_of_N (n + 32) else c.

Fixpoint map (f : ascii -> ascii) (s : string) : string :=
  match s with
  | EmptyString => EmptyString
  | String c r => String (f c) (map f r)
  end.

Definition upper : string -> string := map upper_char.
Definition lower : string -> string := map lower_char.

Fixpoint lstrip (s : string) : string :=
  match s with
  | EmptyString => EmptyString
  | String c r => if isspace c then lstrip r else s
  end.

Fixpoint rstrip (s : string) : string :=
  match s with
  | EmptyString => EmptyString
  | String c r =>
      match rstrip r with
      | EmptyString => if isspace c then EmptyString else String c EmptyString
      | r' => String c r'
      end
  end.

(** [s.strip()] *)
Definition strip (s : string) : string := rstrip (lstrip s).

(** [s.split(sep)] for a one-character separator: never the empty list,
    and an empty field between two adjacent separators. *)
Fixpoint split (sep : ascii) (s : string) : list string :=
  match s with
  | EmptyString => [EmptyString]
  | String c r =>
      if Ascii.eqb c sep then EmptyString :: split sep r
      else match split sep r with
           | [] => [String c EmptyString]
           | f :: fs => String c f :: fs
           end
  end.

Definition colon : ascii := ":"%char.
Definition newline : ascii := ascii_of_N 10.

(** [" ".join(l)] *)
Fixpoint join (sep : string) (l : list string) : string :=
  match l with
  | [] => EmptyString
  | [x] => x
  | x :: r => String.append x (String.append sep (join sep r))
  end.

(** [s.isascii()] *)
Fixpoint is_ascii (s : string) : bool :=
  match s with
  | EmptyString => true
  | String c r => (code c <? 128)%N && is_ascii r
  end.

(** The strict UTF-8 decoder of [bytes.decode()], as an automaton: [need]
    continuation bytes are still expected, the next of them between [lo]
    and [hi].  Over-long forms, the surrogates and code points above
    U+10FFFF are refused, as is a sequence cut short. *)
Fixpoint utf8 (need : nat) (lo hi : N) (s : string) : bool :=
  match s with
  | EmptyString => match need with O => true | S _ => false end
  | String c r =>
      let n := code c in
      match need with
      | O =>
          (if n <? 128 then utf8 0 128 191 r
           else if (194 <=? n) && (n <=? 223) then utf8 1 128 191 r
           else if n =? 224 then utf8 2 160 191 r
           else if (225 <=? n) && (n <=? 236) || (n =? 238) || (n =? 239)
                then utf8 2 128 191 r
           else if n =? 237 then utf8 2 128 159 r
           else if n =? 240 then utf8 3 144 191 r
           else if (241 <=? n) && (n <=? 243) then utf8 3 128 191 r
           else if n =? 244 then utf8 3 128 143 r
           else false)%N
      | S k =>
          (if (lo <=? n) && (n <=? hi) then utf8 k 128 191 r else false)%N
      end
  end.

Definition is_utf8 (s : string) : bool := utf8 0 128 191 s.

End Str.

(** ** Exceptions and outcomes *)

(** [Container.State] *)
Inductive State := RUNNING | STOPPED | ABSENT.

#[global] Instance State_eq_dec : EqDecision State.
Proof. solve_decision. Defined.

(** The exceptions an operation of the module or a handler of the command
    line can end with: the three classes nested in [Container],
    [subprocess.CalledProcessError] (only [list_all] lets it through),
    [OSError] when a program cannot be executed at all, the built-in
    errors of indexing, enum lookup and attribute access,
    [UnicodeDecodeError] of [bytes.decode()] and [ValueError] of
    [shlex.split]. *)
Inductive Exception :=
| MissingInformationsError
| MustUseForceError
| SystemdRunError (command : list string) (output : option string)
| CalledProcessError (returncode : Z) (cmd : list string)
                     (output : string) (stderr : option string)
| OSError (cmd : list string)
| IndexError
| KeyError (key : string)
| AttributeError
| UnicodeDecodeError
| ValueError.

(** [SystemdRunError.pretty_command]: the command of the error, ready to
    be pasted in a terminal. *)
Definition pretty_command (e : Exception) : option string :=
  match e with
  | SystemdRunError command _ => Some (Str.join " " command)
  | _ => None
  end.

Inductive Outcome (A : Type) :=
| Returns (a : A)
| Raises (e : Exception).
Arguments Returns {A} a.
Arguments Raises {A} e.

(** What a finished child process leaves: its exit status and what it
    wrote to its standard output and standard error. *)
Record CompletedProcess := {
  returncode : Z;
  stdout : string;
  stderr : string
}.

(** [Container.__init__] *)
Record Container := {
  name : string;
  distribution : option string;
  release : option string;
  architecture : option string
}.

(** [Container(name=c)] *)
Definition Container_named (n : string) : Container :=
  {| name := n; distribution := None; release := None; architecture := None |}.

(** A command handed to the supervisor: the unit it runs in, the complete
    argument vector (wrapper included) and whether the caller's standard
    streams were bound to it. *)
Record Delegated := {
  unit_of : string;
  argv : list string;
  bound : bool
}.

Definition State_eqb (a b : State) : bool :=
  match a, b with
  | RUNNING, RUNNING | STOPPED, STOPPED | ABSENT, ABSENT => true
  | _, _ => false
  end.

(** [Container.State[key]]: lookup of a member by name. *)
Definition State_getitem (key : string) : Outcome State :=
  if String.eqb key "RUNNING" then Returns RUNNING
  else if String.eqb key "STOPPED" then Returns STOPPED
  else if String.eqb key "ABSENT" then Returns ABSENT
  else Raises (KeyError key).

(** [l[i]] on a list *)
Definition getitem {A : Type} (l : list A) (i : nat) : Outcome A :=
  match nth_error l i with
  | Some x => Returns x
  | None => Raises IndexError
  end.

(** [b.decode()]: the text of the bytes [b], which must be UTF-8. *)
Definition decode (b : string) : Outcome string :=
  if Str.is_utf8 b then Returns b else Raises UnicodeDecodeError.

Definition and_then {A B : Type} (o : Outcome A) (k : A -> Outcome B)
  : Outcome B :=
  match o with
  | Returns a => k a
  | Raises e => Raises e
  end.

Declare Scope outcome_scope.
Delimit Scope outcome_scope with outcome.
Notation "x <-- m ;; k" := (and_then m (fun x => k))
  (at level 100, m at next level, right associativity) : outcome_scope.
Local Open Scope outcome_scope.

(** The values of the dictionary [info] builds: while the lines are read a
    value is a string or a list of strings; in the dictionary returned the
    entry [state] has become a member of [State]. *)
Inductive Raw :=
| One (s : string)
| Many (l : list string).

Inductive InfoValue :=
| Text (s : string)
| Texts (l : list string)
| Member (s : State).

Definition InfoValue_of_Raw (v : Raw) : InfoValue :=
  match v with
  | One s => Text s
  | Many l => Texts l
  end.

(** One turn of the loop of [Container.info] on the line [_info]. *)
Definition info_line (_infos : gmap string Raw) (_info : string)
  : Outcome (gmap string Raw) :=
  let _info := Str.split Str.colon _info in
  k <-- getitem _info 0 ;;
  let _info_key := Str.lower k in
  match _infos !! _info_key with
  | Some v =>
      let l := match v with Many l => l | One x => [x] end in
      f <-- getitem _info 1 ;;
      Returns (<[_info_key := Many (l ++ [Str.lower (Str.strip f)])]> _infos)
  | None =>
      f <-- getitem _info 1 ;;
      Returns (<[_info_key := One (Str.lower (Str.strip f))]> _infos)
  end.

Fixpoint info_lines (_infos : gmap string Raw) (lines : list string)
  : Outcome (gmap string Raw) :=
  match lines with
  | [] => Returns _infos
  | l :: r => d <-- info_line _infos l ;; info_lines d r
  end.

(** The part of [Container.info] after the [try] block, on the decoded
    output of [lxc-info]. *)
Definition info_parse (_out : string) : Outcome (gmap string InfoValue) :=
  _infos <-- info_lines ∅ (Str.split Str.newline (Str.strip _out)) ;;
  match _infos !! "state" with
  | Some (One s) =>
      st <-- State_getitem (Str.upper s) ;;
      Returns (<["state" := Member st]> (InfoValue_of_Raw <$> _infos))
  | Some (Many _) => Raises AttributeError
  | None => Returns (InfoValue_of_Raw <$> _infos)
  end.

(** ** The host and the monad of operations *)

(** What an operation carries along: the host and the delegated commands
    issued so far, oldest first. *)
Record Sys (W : Type) := {
  host : W;
  issued : list Delegated
}.
Arguments host {W} s.
Arguments issued {W} s.

Definition boot {W : Type} (w : W) : Sys W := {| host := w; issued := [] |}.

Definition M (W A : Type) : Type := Sys W -> Outcome A * Sys W.

Definition ret {W A : Type} (a : A) : M W A := fun s => (Returns a, s).

Definition raise {W A : Type} (e : Exception) : M W A := fun s => (Raises e, s).

Definition bind {W A B : Type} (m : M W A) (k : A -> M W B) : M W B :=
  fun s =>
    match m s with
    | (Returns a, s') => k a s'
    | (Raises e, s') => (Raises e, s')
    end.

Definition lift {W A : Type} (o : Outcome A) : M W A := fun s => (o, s).

Declare Scope py_scope.
Delimit Scope py_scope with py.
Notation "x <~ m ;; k" := (bind m (fun x => k))
  (at level 100, m at next level, right associativity) : py_scope.
Notation "m ;;; k" := (bind m (fun _ => k))
  (at level 100, right associativity) : py_scope.

(** What an operation did, seen from outside. *)
Definition result {W A : Type} (r : Outcome A * Sys W) : Outcome A := fst r.
Definition trace {W A : Type} (r : Outcome A * Sys W) : list Delegated :=
  issued (snd r).
Definition final {W A : Type} (r : Outcome A * Sys W) : W := host (snd r).

Section Lxclib.

Context {W : Type}.

(** [inspect args w]: running the read-only tool [args] on host [w];
    [None] when the program cannot be executed. *)
Variable inspect : list string -> W -> option CompletedProcess.

(** [spawn bind args w]: running [args] on host [w], with the caller's
    standard streams bound to the child or not; the host afterwards. *)
Variable spawn : bool -> list string -> W -> option CompletedProcess * W.

Local Open Scope py_scope.

(** [subprocess.check_output(args)]: the child's standard output, or
    [CalledProcessError] on a non-zero exit status.  Standard error is
    not captured by this call. *)
Definition check_output (args : list string) : M W string :=
  fun s =>
    match inspect args (host s) with
    | None => (Raises (OSError args), s)
    | Some p =>
        if (returncode p =? 0)%Z then (Returns (stdout p), s)
        else (Raises (CalledProcessError (returncode p) args (stdout p) None), s)
    end.

(** [try: x = m  except subprocess.CalledProcessError: ...]: [None] when
    the handler is taken; every other exception goes through. *)
Definition except_CalledProcessError {A : Type} (m : M W A) : M W (option A) :=
  fun s =>
    match m s with
    | (Returns a, s') => (Returns (Some a), s')
    | (Raises (CalledProcessError _ _ _ _), s') => (Returns None, s')
    | (Raises e, s') => (Raises e, s')
    end.

(** [Container.state] (a property: every read of it runs [lxc-info]) *)
Definition state (c : Container) : M W State :=
  r <~ except_CalledProcessError
         (check_output ["lxc-info"; "--state"; "--name"; name c]) ;;
  match r with
  | None => ret ABSENT
  | Some _out =>
      text <~ lift (decode _out) ;;
      field <~ lift (getitem (Str.split Str.colon text) 1) ;;
      let _state := Str.upper (Str.strip field) in
      lift (State_getitem _state)
  end.

(** [Container._systemd_run] *)
Definition _systemd_run (unit_name : string) (command : list string)
           (bind : bool) : M W unit :=
  let complete_command :=
    ["systemd-run"; "--unit"; unit_name; "--user"; "--scope"; "-p";
     "Delegate=yes"; "--"] ++ command in
  fun s =>
    let '(r, w') := spawn bind complete_command (host s) in
    let s' := {| host := w';
                 issued := issued s ++
                   [{| unit_of := unit_name; argv := complete_command;
                       bound := bind |}] |} in
    match r with
    | None => (Raises (OSError complete_command), s')
    | Some p =>
        if (returncode p =? 0)%Z then (Returns tt, s')
        else if bind then
          (Raises (SystemdRunError complete_command None), s')
        else
          (Raises (SystemdRunError complete_command (Some (stdout p))), s')
    end.

Definition _systemd_run_stop (c : Container) : M W unit :=
  let command := ["lxc-stop"; "--name"; name c] in
  let unit_name := String.append "lxc-stop-" (name c) in
  _systemd_run unit_name command false.

Definition _systemd_run_start (c : Container) : M W unit :=
  let command := ["lxc-start"; "--name"; name c] in
  let unit_name := String.append "lxc-start-" (name c) in
  _systemd_run unit_name command false.

Definition _systemd_run_create (c : Container) : M W unit :=
  match distribution c, release c, architecture c with
  | Some dist, Some rel, Some arch =>
      let command :=
        ["lxc-create"; "--template"; "download"; "--name"; name c; "--"] in
      let options := ["--dist"; dist; "--release"; rel; "--arch"; arch] in
      let unit_name := String.append "lxc-create-" (name c) in
      _systemd_run unit_name (command ++ options) false
  | _, _, _ => raise MissingInformationsError
  end.

Definition _systemd_run_destroy (c : Container) : M W unit :=
  let command := ["lxc-destroy"; "--name"; name c] in
  let unit_name := String.append "lxc-destroy-" (name c) in
  _systemd_run unit_name command false.

Definition _systemd_run_attach (c : Container)
           (inner_command : option (list string)) (bind : bool) : M W unit :=
  let command := ["lxc-attach"; "--name"; name c] in
  let command :=
    match inner_command with
    | Some inner => (command ++ ["--"]) ++ inner
    | None => command
    end in
  let unit_name := String.append "lxc-attach-" (name c) in
  _systemd_run unit_name command bind.

(** [Container.stop] *)
Definition stop (c : Container) (check : bool) : M W bool :=
  s1 <~ state c ;;
  if State_eqb s1 STOPPED then ret false
  else
    (if negb check then _systemd_run_stop c else ret tt) ;;;
    ret true.

(** [Container.create] *)
Definition create (c : Container) (check : bool) : M W bool :=
  s1 <~ state c ;;
  if negb (State_eqb s1 ABSENT) then ret false
  else
    (if negb check then _systemd_run_create c else ret tt) ;;;
    ret true.

(** [Container.start] *)
Definition start (c : Container) (force check : bool) : M W bool :=
  s1 <~ state c ;;
  if State_eqb s1 RUNNING then ret false
  else
    s2 <~ state c ;;
    if State_eqb s2 ABSENT && negb force then raise MustUseForceError
    else
      create c check ;;;
      (if negb check then _systemd_run_start c else ret tt) ;;;
      ret true.

(** [Container.destroy].  The guard reads [self.state != self.state.STOPPED]:
    the left operand is a probe, the right operand is a further probe
    whose value is only used to reach the member [STOPPED] of its enum. *)
Definition destroy (c : Container) (force check : bool) : M W bool :=
  s1 <~ state c ;;
  if State_eqb s1 ABSENT then ret false
  else
    s2 <~ state c ;;
    _s3 <~ state c ;;
    if negb (State_eqb s2 STOPPED) && negb force then raise MustUseForceError
    else
      stop c check ;;;
      (if negb check then _systemd_run_destroy c else ret tt) ;;;
      ret true.

(** [Container.restart] *)
Definition restart (c : Container) (force check : bool) : M W bool :=
  stop c check ;;;
  start c force check ;;;
  ret true.

(** [Container.attach] *)
Definition attach (c : Container) (command : option (list string))
           (bind force_run force check : bool) : M W bool :=
  let force_run := force_run || force in
  s1 <~ state c ;;
  if negb (State_eqb s1 RUNNING) && negb force_run then raise MustUseForceError
  else
    start c force check ;;;
    (if negb check then _systemd_run_attach c command bind else ret tt) ;;;
    ret true.

(** [Container.info] *)
Definition info (c : Container) : M W (gmap string InfoValue) :=
  r <~ except_CalledProcessError
         (check_output
            ["lxc-info"; "--state"; "--ips"; "--pid"; "--name"; name c]) ;;
  match r with
  | None => ret {["state" := Member ABSENT]}
  | Some _out => text <~ lift (decode _out) ;; lift (info_parse text)
  end.

(** [Container.list_all] *)
Definition list_all : M W (list Container) :=
  _out <~ check_output ["lxc-ls"; "--line"] ;;
  let _containers := Str.split Str.newline (Str.strip _out) in
  ret (List.map Container_named _containers).

(** The dictionary comprehension of [list_info] over the containers
    still to visit. *)
Fixpoint list_info_of (cs : list Container)
         (acc : gmap string (gmap string InfoValue))
  : M W (gmap string (gmap string InfoValue)) :=
  match cs with
  | [] => ret acc
  | c :: r => v <~ info c ;; list_info_of r (<[name c := v]> acc)
  end.

(** [Container.list_info] *)
Definition list_info : M W (gmap string (gmap string InfoValue)) :=
  cs <~ list_all ;;
  list_info_of cs ∅.

End Lxclib.

(** [probe inspect c w]: the value of [c.state] read on host [w]. *)
Definition probe {W : Type} (inspect : list string -> W -> option CompletedProcess)
           (c : Container) (w : W) : Outcome State :=
  result (state inspect c (boot w)).

(** The name of a member of [State], as [State[...]] looks it up. *)
Definition State_name (st : State) : string :=
  match st with
  | RUNNING => "RUNNING"
  | STOPPED => "STOPPED"
  | ABSENT => "ABSENT"
  end.

(** The container has not been given all three of distribution, release
    and architecture. *)
Definition lacks_parameters (c : Container) : bool :=
  match distribution c, release c, architecture c with
  | Some _, Some _, Some _ => false
  | _, _, _ => true
  end.

(** The supervisor's prefix put before every delegated command. *)
Definition wrapper (unit_name : string) : list string :=
  ["systemd-run"; "--unit"; unit_name; "--user"; "--scope"; "-p";
   "Delegate=yes"; "--"].

(** The delegated command of each operation, as it is recorded. *)
Definition delegated (op : string) (c : Container) (args : list string)
           (bind : bool) : Delegated :=
  let unit_name := String.append op (name c) in
  {| unit_of := unit_name; argv := wrapper unit_name ++ args; bound := bind |}.

Definition stop_command (c : Container) : Delegated :=
  delegated "lxc-stop-" c ["lxc-stop"; "--name"; name c] false.

Definition start_command (c : Container) : Delegated :=
  delegated "lxc-start-" c ["lxc-start"; "--name"; name c] false.

Definition destroy_command (c : Container) : Delegated :=
  delegated "lxc-destroy-" c ["lxc-destroy"; "--name"; name c] false.

Definition create_command (c : Container) (dist rel arch : string) : Delegated :=
  delegated "lxc-create-" c
    (["lxc-create"; "--template"; "download"; "--name"; name c; "--"] ++
     ["--dist"; dist; "--release"; rel; "--arch"; arch]) false.

Definition attach_command (c : Container) (inner : option (list string))
           (bind : bool) : Delegated :=
  delegated "lxc-attach-" c
    (match inner with
     | Some i => (["lxc-attach"; "--name"; name c] ++ ["--"]) ++ i
     | None => ["lxc-attach"; "--name"; name c]
     end) bind.

(** The lifecycle operations that take a [check] flag, as one type. *)
Inductive Op :=
| OpStop
| OpStart (force : bool)
| OpCreate
| OpDestroy (force : bool)
| OpAttach (command : option (list string)) (bind force_run force : bool).

Definition run {W : Type} (inspect : list string -> W -> option CompletedProcess)
           (spawn : bool -> list string -> W -> option CompletedProcess * W)
           (c : Container) (op : Op) (check : bool) : M W bool :=
  match op with
  | OpStop => stop inspect spawn c check
  | OpStart force => start inspect spawn c force check
  | OpCreate => create inspect spawn c check
  | OpDestroy force => destroy inspect spawn c force check
  | OpAttach command bind force_run force =>
      attach inspect spawn c command bind force_run force check
  end.



(** ** A scripted host, for running the operations on examples *)

Module Script.

(** A host that answers every call the same way: the word [lxc-info]
    prints as the state ([None]: the container is unknown and [lxc-info]
    fails), the lines it adds when asked for addresses and process id,
    what [lxc-ls] prints, and how every supervised command ends. *)
Record Host := {
  lifecycle : option string;
  details : string;
  listing : string;
  verdict : option CompletedProcess
}.

Definition nl : string := String Str.newline EmptyString.

Definition ok (out : string) : CompletedProcess :=
  {| returncode := 0; stdout := out; stderr := "" |}.

Definition inspect (args : list string) (h : Host) : option CompletedProcess :=
  match args with
  | "lxc-info" :: opts =>
      match lifecycle h with
      | None =>
          Some {| returncode := 1; stdout := "";
                  stderr := "container does not exist" |}
      | Some word =>
          let first := String.append "State:          " (String.append word nl) in
          if existsb (String.eqb "--ips") opts
          then Some (ok (String.append first (details h)))
          else Some (ok first)
      end
  | "lxc-ls" :: _ => Some (ok (listing h))
  | _ => None
  end.

Definition spawn (bind : bool) (args : list string) (h : Host)
  : option CompletedProcess * Host :=
  (verdict h, h).

Definition host_in (word : option string) : Host :=
  {| lifecycle := word; details := ""; listing := "";
     verdict := Some (ok "") |}.

(** Every supervised command fails with exit status 1, nothing on its
    standard output and [msg] on its standard error. *)
Definition failing (word : option string) (msg : string) : Host :=
  {| lifecycle := word; details := ""; listing := "";
     verdict := Some {| returncode := 1; stdout := ""; stderr := msg |} |}.

Definition bare (n : string) : Container := Container_named n.

Definition full (n : string) : Container :=
  {| name := n; distribution := Some "debian"; release := Some "bookworm";
     architecture := Some "amd64" |}.

End Script.

(** ** A host with one container, for examples where commands change it *)

Module Box.

(** The host is the state of its one container, whatever name is asked
    for.  [lxc-stop], [lxc-start], [lxc-create] and [lxc-destroy] succeed
    from the state they apply to and move the container on; from any other
    state they fail and leave it alone.  [lxc-attach] succeeds on a running
    container. *)
Definition World := State.

Definition done_ : CompletedProcess :=
  {| returncode := 0; stdout := ""; stderr := "" |}.

Definition refused : CompletedProcess :=
  {| returncode := 1; stdout := ""; stderr := "wrong state" |}.

Definition inspect (args : list string) (w : World) : option CompletedProcess :=
  match args with
  | "lxc-info" :: _ =>
      match w with
      | ABSENT =>
          Some {| returncode := 1; stdout := "";
                  stderr := "container does not exist" |}
      | RUNNING =>
          Some (Script.ok (String.append "State:          RUNNING" Script.nl))
      | STOPPED =>
          Some (Script.ok (String.append "State:          STOPPED" Script.nl))
      end
  | "lxc-ls" :: _ =>
      match w with
      | ABSENT => Some (Script.ok "")
      | _ => Some (Script.ok (String.append "c" Script.nl))
      end
  | _ => None
  end.

Definition move (tool : string) (w : World) : option World :=
  if String.eqb tool "lxc-stop" then
    match w with RUNNING => Some STOPPED | _ => None end
  else if String.eqb tool "lxc-start" then
    match w with STOPPED => Some RUNNING | _ => None end
  else if String.eqb tool "lxc-create" then
    match w with ABSENT => Some STOPPED | _ => None end
  else if String.eqb tool "lxc-destroy" then
    match w with STOPPED => Some ABSENT | _ => None end
  else if String.eqb tool "lxc-attach" then
    match w with RUNNING => Some RUNNING | _ => None end
  else None.

(** The tool is the ninth word, after the eight of the supervisor. *)
Definition spawn (bind : bool) (args : list string) (w : World)
  : option CompletedProcess * World :=
  match nth_error args 8 with
  | Some tool =>
      match move tool w with
      | Some w' => (Some done_, w')
      | None => (Some refused, w)
      end
  | None => (Some refused, w)
  end.

End Box.

(** ** Notions used by the further properties *)

(** [d] is one of the commands the lifecycle operations build for [c]. *)
Definition is_command_of (c : Container) (d : Delegated) : Prop :=
  d = stop_command c \/ d = start_command c \/ d = destroy_command c \/
  (exists dist rel arch,
      distribution c = Some dist /\ release c = Some rel /\
      architecture c = Some arch /\ d = create_command c dist rel arch) \/
  (exists inner bind, d = attach_command c inner bind).

(** The character [c] occurs in [s]. *)
Fixpoint occurs (c : ascii) (s : string) : bool :=
  match s with
  | EmptyString => false
  | String a r => Ascii.eqb a c || occurs c r
  end.

(** ** Facts shared by the claims *)

Section Facts.

Context {W : Type}.
Variable inspect : list string -> W -> option CompletedProcess.
Variable spawn : bool -> list string -> W -> option CompletedProcess * W.

(** Reading the state neither changes the host nor issues a command. *)
Lemma state_reads (c : Container) (s : Sys W) :
  state inspect c s = (probe inspect c (host s), s).
Proof.
  unfold probe, result, state, bind, except_CalledProcessError,
    check_output, lift, ret, boot, decode; simpl.
  destruct (inspect _ (host s)) as [p|]; [|reflexivity].
  destruct (returncode p =? 0)%Z; [|reflexivity].
  destruct (Str.is_utf8 (stdout p)); [|reflexivity].
  destruct (getitem (Str.split Str.colon (stdout p)) 1); reflexivity.
Qed.

(** What the probe answers, from what [lxc-info] did. *)
Lemma probe_unfold (c : Container) (w : W) :
  probe inspect c w =
  match inspect ["lxc-info"; "--state"; "--name"; name c] w with
  | None => Raises (OSError ["lxc-info"; "--state"; "--name"; name c])
  | Some p =>
      if (returncode p =? 0)%Z then
        text <-- decode (stdout p) ;;
        field <-- getitem (Str.split Str.colon text) 1 ;;
        State_getitem (Str.upper (Str.strip field))
      else Returns ABSENT
  end.
Proof.
  unfold probe, result, state, bind, except_CalledProcessError,
    check_output, lift, ret, boot, and_then, decode; simpl.
  destruct (inspect _ w) as [p|]; [|reflexivity].
  destruct (returncode p =? 0)%Z; [|reflexivity].
  destruct (Str.is_utf8 (stdout p)); [|reflexivity].
  destruct (getitem (Str.split Str.colon (stdout p)) 1); reflexivity.
Qed.

(** ASCII bytes are UTF-8: they decode to themselves. *)
Lemma ascii_is_utf8 (b : string) :
  Str.is_ascii b = true -> Str.is_utf8 b = true.
Proof.
  unfold Str.is_utf8.
  induction b as [|a r IH]; [reflexivity|].
  cbn [Str.is_ascii Str.utf8]. intros H.
  apply andb_prop in H as [Ha Hr]. rewrite Ha. apply IH, Hr.
Qed.

Lemma decode_ascii (b : string) :
  Str.is_ascii b = true -> decode b = Returns b.
Proof. intros H. unfold decode. rewrite (ascii_is_utf8 b H). reflexivity. Qed.

(** A supervised command is recorded whatever its end, and it is the
    only thing [_systemd_run] adds to the record. *)
Lemma systemd_run_trace (u : string) (command : list string) (bind : bool)
      (s : Sys W) :
  trace (_systemd_run spawn u command bind s) =
  issued s ++ [{| unit_of := u; argv := wrapper u ++ command; bound := bind |}].
Proof.
  unfold trace, _systemd_run, wrapper.
  destruct (spawn bind _ (host s)) as [[p|] w']; simpl; [|reflexivity].
  destruct (returncode p =? 0)%Z; [reflexivity|].
  destruct bind; reflexivity.
Qed.

End Facts.

(** [State[key]] finds a member exactly when [key] is its name, and
    raises [KeyError] on every other key. *)
Lemma State_getitem_spec (key : string) :
  (forall st, State_getitem key = Returns st <-> key = State_name st) /\
  ((forall st, key <> State_name st) -> State_getitem key = Raises (KeyError key)).
Proof.
  unfold State_getitem.
  destruct (String.eqb key "RUNNING") eqn:E1;
    [apply String.eqb_eq in E1|apply String.eqb_neq in E1];
    [subst; split; [intros []; cbn; split; (reflexivity || discriminate)
                   |intros H; destruct (H RUNNING); reflexivity]|].
  destruct (String.eqb key "STOPPED") eqn:E2;
    [apply String.eqb_eq in E2|apply String.eqb_neq in E2];
    [subst; split; [intros []; cbn; split; (reflexivity || discriminate)
                   |intros H; destruct (H STOPPED); reflexivity]|].
  destruct (String.eqb key "ABSENT") eqn:E3;
    [apply String.eqb_eq in E3|apply String.eqb_neq in E3];
    [subst; split; [intros []; cbn; split; (reflexivity || discriminate)
                   |intros H; destruct (H ABSENT); reflexivity]|].
  split; [|reflexivity].
  intros []; cbn; split; (discriminate || contradiction).
Qed.

(** Steps through an operation whose probes all answer as [H] says. *)
Ltac probe_with H :=
  repeat (rewrite state_reads; cbn [host boot fst snd]; rewrite ?H;
          cbn [State_eqb negb andb orb]).

Ltac open_ops :=
  unfold run, result, trace, final, attach, restart, destroy, start, create,
    stop, bind, ret, raise.

Section Lifecycle.

Context {W : Type}.
Variable inspect : list string -> W -> option CompletedProcess.
Variable spawn : bool -> list string -> W -> option CompletedProcess * W.

Local Abbreviation stop := (stop inspect spawn).
Local Abbreviation start := (start inspect spawn).
Local Abbreviation create := (create inspect spawn).
Local Abbreviation destroy := (destroy inspect spawn).
Local Abbreviation attach := (attach inspect spawn).

(** C2 (amended).  For a container built without all three of
    distribution, release and architecture, [create] issues no delegated
    command and leaves the host alone whatever the probed state.  It raises
    [MissingInformationsError] exactly when the probed state is [ABSENT]
    and [check] is false; on a [RUNNING] or [STOPPED] container it
    returns [False], the no-op indication, and with [check=True] on an
    [ABSENT] one it returns [True]. *)
Theorem create_without_parameters (c : Container) (w : W) (check : bool)
        (st : State) :
  lacks_parameters c = true ->
  probe inspect c w = Returns st ->
  let r := create c check (boot w) in
  trace r = [] /\ final r = w /\
  result r =
    match st with
    | ABSENT => if check then Returns true else Raises MissingInformationsError
    | _ => Returns false
    end.
Proof.
  intros Hlack Hst r; subst r. open_ops. probe_with Hst.
  destruct st; cbn; try (repeat split; reflexivity).
  destruct check; cbn; [repeat split; reflexivity|].
  unfold _systemd_run_create, raise. unfold lacks_parameters in Hlack.
  destruct (distribution c), (release c), (architecture c);
    try discriminate; repeat split; reflexivity.
Qed.


(** C9.  On a container probed [ABSENT], [attach] with [force_run=True]
    and [force=False] gets past its own guard, so that it is the implied
    [start] that runs next, and [start] raises [MustUseForceError]: the
    call ends with that error and no delegated command has been issued,
    so nothing is created. *)
Theorem attach_force_run_absent (c : Container) (w : W)
        (command : option (list string)) (bind check : bool) :
  probe inspect c w = Returns ABSENT ->
  let r := attach c command bind true false check (boot w) in
  result r = Raises MustUseForceError /\
  trace r = [] /\ final r = w /\
  r = (start c false check ;;;
       (if negb check then _systemd_run_attach spawn c command bind
        else ret tt) ;;;
       ret true)%py (boot w) /\
  result (start c false check (boot w)) = Raises MustUseForceError.
Proof.
  intros Hst r; subst r.
  repeat split; open_ops; probe_with Hst; reflexivity.
Qed.

(** C5 (amended).  On a container probed [STOPPED], [attach] without
    [force_run] and without [force] raises [MustUseForceError] and issues
    nothing.  On a container probed [ABSENT] that was built with all
    three of distribution, release and architecture, [attach] with
    [force=True] issues the create, start and attach commands, in that
    order and nothing else, each one after the one before it has exited
    with status zero. *)
Theorem attach_forced (c : Container) (w : W)
        (command : option (list string)) (bind : bool) :
  (probe inspect c w = Returns STOPPED ->
   forall check,
     result (attach c command bind false false check (boot w)) =
       Raises MustUseForceError /\
     trace (attach c command bind false false check (boot w)) = []) /\
  (probe inspect c w = Returns ABSENT ->
   forall dist rel arch force_run p1 w1 p2 w2,
     distribution c = Some dist ->
     release c = Some rel ->
     architecture c = Some arch ->
     spawn false (argv (create_command c dist rel arch)) w = (Some p1, w1) ->
     returncode p1 = 0%Z ->
     spawn false (argv (start_command c)) w1 = (Some p2, w2) ->
     returncode p2 = 0%Z ->
     trace (attach c command bind force_run true false (boot w)) =
       [create_command c dist rel arch; start_command c;
        attach_command c command bind]).
Proof.
  split; intros Hst.
  - intros check. open_ops. probe_with Hst. split; reflexivity.
  - intros dist rel arch force_run p1 w1 p2 w2 Hd Hr Ha H1 Hc1 H2 Hc2.
    open_ops. rewrite orb_true_r. probe_with Hst.
    unfold _systemd_run_create, _systemd_run_start, _systemd_run_attach,
      _systemd_run.
    rewrite Hd, Hr, Ha. cbn in H1, H2 |- *.
    rewrite H1, Hc1. cbn. rewrite H2, Hc2. cbn.
    destruct command as [inner|]; cbn;
      (destruct (spawn bind _ w2) as [[q|] w3]; cbn; [|reflexivity]);
      destruct (returncode q =? 0)%Z; destruct bind; reflexivity.
Qed.


(** What the error of a failed supervised command carries.  When a
    command run without binding the standard streams exits with a non-zero
    status, [_systemd_run] raises [SystemdRunError] with the complete
    argument vector, supervisor prefix included, and with [err.output],
    which is what the command wrote to its standard output.  So does
    [stop] on a container probed [RUNNING]. *)
Theorem batch_failure_is_reported (unit_name : string)
        (command : list string) (s : Sys W) (p : CompletedProcess) (w1 : W) :
  spawn false (wrapper unit_name ++ command) (host s) = (Some p, w1) ->
  returncode p <> 0%Z ->
  result (_systemd_run spawn unit_name command false s) =
    Raises (SystemdRunError (wrapper unit_name ++ command) (Some (stdout p))) /\
  (forall c,
      unit_name = String.append "lxc-stop-" (name c) ->
      command = ["lxc-stop"; "--name"; name c] ->
      probe inspect c (host s) = Returns RUNNING ->
      result (stop c false s) =
        Raises (SystemdRunError (argv (stop_command c)) (Some (stdout p)))).
Proof.
  intros Hrun Hrc.
  assert (Hz : (returncode p =? 0)%Z = false) by (apply Z.eqb_neq; exact Hrc).
  split.
  - unfold result, _systemd_run. cbn in Hrun |- *. rewrite Hrun, Hz.
    reflexivity.
  - intros c -> -> Hst. open_ops. probe_with Hst.
    unfold _systemd_run_stop, _systemd_run.
    cbn in Hrun |- *. rewrite Hrun, Hz. reflexivity.
Qed.

End Lifecycle.

Section Inspection.

Context {W : Type}.
Variable inspect : list string -> W -> option CompletedProcess.

(** The argument vector of the probe of [c]. *)
Local Abbreviation probe_args c := ["lxc-info"; "--state"; "--name"; name c].

(** C3 (amended).  Deriving the state of a container gives a member of
    [State] in two cases: [ABSENT] when [lxc-info] exits with a non-zero
    status and, when it exits with status zero and prints ASCII text, the
    member named by the second colon-separated field, stripped and
    upper-cased.  It is not total: a word that names no member raises
    [KeyError] rather than giving [ABSENT], an output without a colon
    raises [IndexError], an output that is not UTF-8 raises
    [UnicodeDecodeError], and when [lxc-info] cannot be executed the
    [OSError] goes through. *)
Theorem state_derivation (c : Container) (w : W) :
  (inspect (probe_args c) w = None ->
   probe inspect c w = Raises (OSError (probe_args c))) /\
  (forall p, inspect (probe_args c) w = Some p ->
             returncode p <> 0%Z ->
             probe inspect c w = Returns ABSENT) /\
  (forall p, inspect (probe_args c) w = Some p ->
             returncode p = 0%Z ->
             (Str.is_utf8 (stdout p) = false ->
              probe inspect c w = Raises UnicodeDecodeError) /\
             (Str.is_utf8 (stdout p) = true ->
              forall key, Str.split Str.colon (stdout p) = [key] ->
                          probe inspect c w = Raises IndexError) /\
             (Str.is_ascii (stdout p) = true ->
              forall key value rest,
                 Str.split Str.colon (stdout p) = key :: value :: rest ->
                 let word := Str.upper (Str.strip value) in
                 (forall st, probe inspect c w = Returns st <->
                             word = State_name st) /\
                 ((forall st, word <> State_name st) ->
                  probe inspect c w = Raises (KeyError word)))).
Proof.
  rewrite probe_unfold.
  destruct (inspect (probe_args c) w) as [p|] eqn:Hi.
  2:{ repeat split; try (intros; discriminate); auto. }
  destruct (returncode p =? 0)%Z eqn:Hz;
    [apply Z.eqb_eq in Hz|apply Z.eqb_neq in Hz].
  - split; [discriminate|split].
    + intros q [= <-] Hq. contradiction.
    + intros q [= <-] _. split; [|split].
      * intros Hu. unfold decode. rewrite Hu. reflexivity.
      * intros Hu key Hs. unfold decode. rewrite Hu. cbn.
        rewrite Hs. reflexivity.
      * intros Ha key value rest Hs word.
        rewrite (decode_ascii _ Ha). cbn. rewrite Hs. cbn.
        fold word. apply State_getitem_spec.
  - split; [discriminate|]. split.
    + reflexivity.
    + intros q [= <-] Hq. contradiction.
Qed.

(** C10.  When [lxc-ls] exits with status zero and prints nothing (or
    blank characters only), [list_all] returns the one-element list whose
    only container is named by the empty string, not the empty list.
    [list_info] then asks [info] about that container, so it runs
    [lxc-info] on the empty name: it returns the dictionary with the one
    key [""] bound to what [info] returned, which is [{state: ABSENT}]
    when that [lxc-info] exits with a non-zero status. *)
Theorem list_all_empty_output (w : W) (p : CompletedProcess) :
  inspect ["lxc-ls"; "--line"] w = Some p ->
  returncode p = 0%Z ->
  Str.strip (stdout p) = "" ->
  result (list_all inspect (boot w)) = Returns [Container_named ""] /\
  result (list_info inspect (boot w)) =
    match result (info inspect (Container_named "") (boot w)) with
    | Returns v => Returns {["" := v]}
    | Raises e => Raises e
    end /\
  (forall q,
      inspect ["lxc-info"; "--state"; "--ips"; "--pid"; "--name"; ""] w =
        Some q ->
      returncode q <> 0%Z ->
      result (list_info inspect (boot w)) =
        Returns {["" := {["state" := Member ABSENT]}]}).
Proof.
  intros Hls Hrc Hout.
  assert (Hall : list_all inspect (boot w) =
                 (Returns [Container_named ""], boot w)).
  { unfold list_all, bind, check_output, ret. cbn [host boot].
    rewrite Hls, Hrc. cbn [Z.eqb stdout]. rewrite Hout. reflexivity. }
  assert (Hinfo :
             result (list_info inspect (boot w)) =
             match result (info inspect (Container_named "") (boot w)) with
             | Returns v => Returns (<["" := v]> ∅)
             | Raises e => Raises e
             end).
  { unfold list_info, bind, result. rewrite Hall.
    cbn [list_info_of]. unfold bind, ret.
    destruct (info inspect (Container_named "") (boot w)) as [[v|e] s'];
      reflexivity. }
  split; [unfold result; rewrite Hall; reflexivity|].
  split; [rewrite Hinfo; reflexivity|].
  intros q Hq Hqc. rewrite Hinfo.
  apply Z.eqb_neq in Hqc.
  unfold info, result, bind, except_CalledProcessError, check_output, ret.
  cbn. rewrite Hq, Hqc. reflexivity.
Qed.

End Inspection.

(** ** The claims on concrete hosts *)

Module Examples.

Import Script.

Definition c_bare : Container := bare "c".
Definition c_full : Container := full "c".

Definition running : Host := host_in (Some "RUNNING").
Definition stopped : Host := host_in (Some "STOPPED").
Definition absent : Host := host_in None.
Definition frozen : Host := host_in (Some "FROZEN").

(** The byte 0xFF, which no UTF-8 text contains. *)
Definition not_utf8 : string := String (ascii_of_N 255) EmptyString.

(** [lxc-info] prints that byte where the state word should be. *)
Definition garbled : Host := host_in (Some not_utf8).

(** No container at all: [lxc-ls --line] prints nothing and [lxc-info]
    knows no name. *)
Definition empty_host : Host := host_in None.

(** Every supervised command fails with status 1 and writes
    [no such container] to its standard error only. *)
Definition refusing : Host := failing (Some "RUNNING") "no such container".

Definition lines (l : list string) : string :=
  fold_right (fun x acc => String.append x (String.append nl acc)) "" l.

(** [lxc-info] reports two addresses, the second an IPv6 one. *)
Definition two_addresses : Host :=
  {| lifecycle := Some "running";
     details := lines ["ip: 10.0.0.2"; "ip: fe80::1"];
     listing := "c"; verdict := Some (ok "") |}.

(** [lxc-info] reports two IPv4 addresses. *)
Definition two_ipv4 : Host :=
  {| lifecycle := Some "running";
     details := lines ["ip: 10.0.0.2"; "ip: 10.0.0.3"];
     listing := "c"; verdict := Some (ok "") |}.

(** The entry of a key in what [info] returned, if it returned. *)
Definition entry (r : Outcome (gmap string InfoValue)) (key : string)
  : option InfoValue :=
  match r with
  | Returns d => d !! key
  | Raises _ => None
  end.

End Examples.

Import Examples.

(** C1.  On a host where the container is [ABSENT], [destroy] is a no-op
    (it returns [False] and issues nothing, forced or not), but [stop] is
    not: its only early return is for [STOPPED], so it issues the
    [lxc-stop] command under the supervisor and returns [True]. *)
Theorem stop_absent_issues_lxc_stop :
  probe Script.inspect c_bare absent = Returns ABSENT /\
  (forall force,
      result (destroy Script.inspect Script.spawn c_bare force false (boot absent))
        = Returns false /\
      trace (destroy Script.inspect Script.spawn c_bare force false (boot absent))
        = []) /\
  result (stop Script.inspect Script.spawn c_bare false (boot absent))
    = Returns true /\
  trace (stop Script.inspect Script.spawn c_bare false (boot absent))
    = [stop_command c_bare].
Proof.
  split; [reflexivity|]. split; [intros []; split; reflexivity|].
  split; reflexivity.
Qed.

(** C2, as first stated, fails: a container without parameters that is
    [RUNNING] makes [create] return [False]; nothing is raised. *)
Lemma create_running_returns_false :
  lacks_parameters c_bare = true /\
  probe Script.inspect c_bare running = Returns RUNNING /\
  result (create Script.inspect Script.spawn c_bare false (boot running))
    = Returns false /\
  result (create Script.inspect Script.spawn c_bare false (boot running))
    <> Raises MissingInformationsError.
Proof. repeat split; try reflexivity. discriminate. Qed.

Lemma create_without_parameters_witness :
  (lacks_parameters c_bare = true /\
   probe Script.inspect c_bare absent = Returns ABSENT) /\
  let r := create Script.inspect Script.spawn c_bare false (boot absent) in
  trace r = [] /\ final r = absent /\
  result r = Raises MissingInformationsError.
Proof.
  split; [split; reflexivity|].
  apply (create_without_parameters Script.inspect Script.spawn
           c_bare absent false ABSENT); reflexivity.
Defined.

(** C3, as first stated, fails: a frozen container makes [lxc-info] print
    the state [FROZEN], and deriving the state raises [KeyError]; it does
    not give [ABSENT]. *)
Lemma state_frozen_raises_KeyError :
  Script.inspect ["lxc-info"; "--state"; "--name"; "c"] frozen =
    Some (Script.ok (String.append "State:          FROZEN" Script.nl)) /\
  probe Script.inspect c_bare frozen = Raises (KeyError "FROZEN") /\
  probe Script.inspect c_bare frozen <> Returns ABSENT.
Proof. repeat split; try reflexivity. discriminate. Qed.

Lemma state_derivation_witness :
  probe Script.inspect c_bare absent = Returns ABSENT /\
  (probe Script.inspect c_bare running = Returns RUNNING <->
   Str.upper (Str.strip (String.append "          RUNNING" Script.nl))
     = State_name RUNNING) /\
  probe Script.inspect c_bare garbled = Raises UnicodeDecodeError.
Proof.
  split; [|split].
  - apply (proj1 (proj2 (state_derivation Script.inspect c_bare absent))
             {| returncode := 1; stdout := "";
                stderr := "container does not exist" |});
      [reflexivity|discriminate].
  - pose proof (proj2 (proj2
             (state_derivation Script.inspect c_bare running))
             (Script.ok (String.append "State:          RUNNING" Script.nl))
             eq_refl eq_refl) as [_ [_ Hfields]].
    apply (proj1 (Hfields eq_refl "State"
                    (String.append "          RUNNING" Script.nl) []
                    eq_refl) RUNNING).
  - pose proof (proj2 (proj2
             (state_derivation Script.inspect c_bare garbled))
             (Script.ok (String.append "State:          "
                           (String.append not_utf8 Script.nl)))
             eq_refl eq_refl) as [Hbytes _].
    apply Hbytes. reflexivity.
Defined.



(** C5, as first stated, fails: [attach] with [force=True] on an [ABSENT]
    container that was built from its name alone raises
    [MissingInformationsError] at the create step and issues nothing. *)
Lemma attach_absent_without_parameters :
  probe Script.inspect c_bare absent = Returns ABSENT /\
  result (attach Script.inspect Script.spawn c_bare None false false true false
            (boot absent)) = Raises MissingInformationsError /\
  trace (attach Script.inspect Script.spawn c_bare None false false true false
           (boot absent)) = [].
Proof. repeat split; reflexivity. Qed.

Lemma attach_forced_witness :
  (probe Script.inspect c_full stopped = Returns STOPPED /\
   result (attach Script.inspect Script.spawn c_full None false false false
             false (boot stopped)) = Raises MustUseForceError) /\
  (probe Script.inspect c_full absent = Returns ABSENT /\
   trace (attach Script.inspect Script.spawn c_full None false false true false
            (boot absent)) =
     [create_command c_full "debian" "bookworm" "amd64";
      start_command c_full; attach_command c_full None false]).
Proof.
  split; (split; [reflexivity|]).
  - apply (proj1 (attach_forced Script.inspect Script.spawn c_full stopped
                    None false) eq_refl false).
  - apply (proj2 (attach_forced Script.inspect Script.spawn c_full absent
                    None false) eq_refl
             "debian" "bookworm" "amd64" false
             (Script.ok "") absent (Script.ok "") absent);
      reflexivity.
Defined.

(** C6.  The error of a failed supervised command does not carry the text
    of the failure.  [lxc-stop], run for [stop] on a [RUNNING] container,
    exits with status 1, writes nothing to its standard output and
    [no such container] to its standard error: [stop] raises
    [SystemdRunError] with the complete argument vector, but the output
    attached is [err.output], the empty standard output, and the captured
    standard-error text is dropped. *)
Lemma stop_failure_drops_stderr :
  Script.spawn false (argv (stop_command c_bare)) refusing =
    (Some {| returncode := 1; stdout := ""; stderr := "no such container" |},
     refusing) /\
  result (stop Script.inspect Script.spawn c_bare false (boot refusing)) =
    Raises (SystemdRunError (argv (stop_command c_bare)) (Some "")) /\
  result (stop Script.inspect Script.spawn c_bare false (boot refusing)) <>
    Raises (SystemdRunError (argv (stop_command c_bare))
              (Some "no such container")).
Proof. repeat split; try reflexivity. discriminate. Qed.

Lemma batch_failure_is_reported_witness :
  result (_systemd_run Script.spawn "lxc-stop-c" ["lxc-stop"; "--name"; "c"]
            false (boot refusing)) =
    Raises (SystemdRunError
              ["systemd-run"; "--unit"; "lxc-stop-c"; "--user"; "--scope";
               "-p"; "Delegate=yes"; "--"; "lxc-stop"; "--name"; "c"]
              (Some "")) /\
  result (stop Script.inspect Script.spawn c_bare false (boot refusing)) =
    Raises (SystemdRunError (argv (stop_command c_bare)) (Some "")).
Proof.
  pose proof (batch_failure_is_reported Script.inspect Script.spawn
                "lxc-stop-c" ["lxc-stop"; "--name"; "c"] (boot refusing)
                {| returncode := 1; stdout := "";
                   stderr := "no such container" |} refusing
                eq_refl ltac:(discriminate)) as [Hrun Hstop].
  split; [exact Hrun|].
  exact (Hstop c_bare eq_refl eq_refl eq_refl).
Defined.

(** C7.  When [lxc-info] prints the two lines [ip: 10.0.0.2] and
    [ip: fe80::1], [info] binds [ip] to a list that keeps the order of the
    lines, but its second element is [fe80]: each line is split at every
    colon and only the second field is kept, so an IPv6 address loses all
    that follows its first colon.  Two IPv4 addresses are both kept whole,
    in the order of the lines. *)
Theorem info_truncates_ipv6 :
  Script.inspect ["lxc-info"; "--state"; "--ips"; "--pid"; "--name"; "c"]
                 two_addresses =
    Some (Script.ok (lines ["State:          running"; "ip: 10.0.0.2";
                            "ip: fe80::1"])) /\
  entry (result (info Script.inspect c_bare (boot two_addresses))) "ip" =
    Some (Texts ["10.0.0.2"; "fe80"]) /\
  entry (result (info Script.inspect c_bare (boot two_addresses))) "state" =
    Some (Member RUNNING) /\
  entry (info_parse (lines ["ip: 10.0.0.2"; "ip: fe80::1"])) "ip" =
    Some (Texts ["10.0.0.2"; "fe80"]) /\
  entry (result (info Script.inspect c_bare (boot two_ipv4))) "ip" =
    Some (Texts ["10.0.0.2"; "10.0.0.3"]).
Proof. repeat split; vm_compute; reflexivity. Qed.

Lemma attach_force_run_absent_witness :
  probe Script.inspect c_full absent = Returns ABSENT /\
  result (attach Script.inspect Script.spawn c_full None true true false false
            (boot absent)) = Raises MustUseForceError /\
  trace (attach Script.inspect Script.spawn c_full None true true false false
           (boot absent)) = [].
Proof.
  pose proof (attach_force_run_absent Script.inspect Script.spawn c_full
                absent None true false eq_refl) as [Hres [Htr _]].
  split; [reflexivity|]. split; [exact Hres|exact Htr].
Defined.

Lemma list_all_empty_output_witness :
  Script.inspect ["lxc-ls"; "--line"] empty_host = Some (Script.ok "") /\
  result (list_all Script.inspect (boot empty_host)) =
    Returns [Container_named ""] /\
  result (list_info Script.inspect (boot empty_host)) =
    Returns {["" := {["state" := Member ABSENT]}]}.
Proof.
  pose proof (list_all_empty_output Script.inspect empty_host (Script.ok "")
                eq_refl eq_refl eq_refl) as [Hall [_ Hinfo]].
  split; [reflexivity|]. split; [exact Hall|].
  apply (Hinfo {| returncode := 1; stdout := "";
                  stderr := "container does not exist" |});
    [reflexivity|discriminate].
Defined.

(** ** Further properties of the lifecycle operations *)

(** Opens the supervised commands and splits on what each of them did. *)
Ltac split_commands c spawn :=
  unfold _systemd_run_stop, _systemd_run_start, _systemd_run_create,
    _systemd_run_destroy, _systemd_run_attach, _systemd_run, raise;
  cbn;
  repeat
    match goal with
    | |- context [match distribution c with _ => _ end] =>
        destruct (distribution c); cbn
    | |- context [match release c with _ => _ end] =>
        destruct (release c); cbn
    | |- context [match architecture c with _ => _ end] =>
        destruct (architecture c); cbn
    | |- context [spawn ?b ?a ?h] =>
        destruct (spawn b a h) as [[?|] ?]; cbn
    | |- context [(returncode ?p =? 0)%Z] =>
        destruct (returncode p =? 0)%Z; cbn
    | |- context [if ?b then _ else _] => is_var b; destruct b; cbn
    | |- context [match ?o with Some _ => _ | None => _ end] =>
        is_var o; destruct o; cbn
    end.

(** Walks every path of an operation of [Op] from the host [w]. *)
Ltac walk inspect spawn c op check w :=
  let Hst := fresh "Hst" in
  destruct (probe inspect c w) as [[]|?] eqn:Hst;
  destruct op as [|[]| |[]|? ? [] []]; destruct check;
  open_ops; probe_with Hst; cbn [State_eqb negb andb orb];
  probe_with Hst; split_commands c spawn.

Section Walks.

Context {W : Type}.
Variable inspect : list string -> W -> option CompletedProcess.
Variable spawn : bool -> list string -> W -> option CompletedProcess * W.

Local Abbreviation run := (run inspect spawn).

(** An operation that answers [False] has done nothing: it has issued no
    delegated command and the host is as it was. *)
Theorem false_means_nothing_done (c : Container) (op : Op) (check : bool)
        (w : W) :
  result (run c op check (boot w)) = Returns false ->
  trace (run c op check (boot w)) = [] /\
  final (run c op check (boot w)) = w.
Proof.
  walk inspect spawn c op check w;
    intros H; try discriminate H; split; reflexivity.
Qed.

(** [MustUseForceError] and [MissingInformationsError] are raised before
    anything is done: when one of the five operations ends with either, no
    delegated command has been issued and the host is as it was. *)
Theorem precondition_errors_come_first (c : Container) (op : Op)
        (check : bool) (w : W) :
  result (run c op check (boot w)) = Raises MustUseForceError \/
  result (run c op check (boot w)) = Raises MissingInformationsError ->
  trace (run c op check (boot w)) = [] /\
  final (run c op check (boot w)) = w.
Proof.
  walk inspect spawn c op check w;
    intros [H|H]; try discriminate H; split; reflexivity.
Qed.

(** No operation issues more than three delegated commands, and only
    [attach] can reach three (create, start, attach). *)
Theorem at_most_three_commands (c : Container) (op : Op) (check : bool)
        (w : W) :
  length (trace (run c op check (boot w))) <=
    match op with
    | OpStop | OpCreate => 1
    | OpStart _ | OpDestroy _ => 2
    | OpAttach _ _ _ _ => 3
    end.
Proof.
  walk inspect spawn c op check w; repeat constructor.
Qed.

End Walks.

Section Ownership.

Context {W : Type}.
Variable inspect : list string -> W -> option CompletedProcess.
Variable spawn : bool -> list string -> W -> option CompletedProcess * W.

(** Every delegated command an operation on [c] issues is one of the five
    commands built for [c]: it runs in a unit named after the tool and
    [c], under the supervisor's prefix, and names no other container. *)
Theorem commands_stay_on_the_container (c : Container) (op : Op)
        (check : bool) (w : W) :
  Forall (is_command_of c) (trace (run inspect spawn c op check (boot w))).
Proof.
  unfold is_command_of.
  walk inspect spawn c op check w;
    repeat (apply List.Forall_cons;
            [first [ left; reflexivity
                   | right; left; reflexivity
                   | right; right; left; reflexivity
                   | right; right; right; left;
                     eexists _, _, _; repeat split; reflexivity
                   | right; right; right; right;
                     eexists (Some _), _; reflexivity
                   | right; right; right; right;
                     eexists None, _; reflexivity ]|]);
    apply List.Forall_nil.
Qed.

(** Force only lifts [MustUseForceError]: when [start], [destroy] or
    [attach] called without any force flag does not end with that error,
    the same call with force does exactly the same (same outcome, same
    commands, same host). *)
Theorem force_only_lifts_MustUseForceError (c : Container) (check : bool)
        (w : W) :
  (result (start inspect spawn c false check (boot w))
     <> Raises MustUseForceError ->
   start inspect spawn c true check (boot w) =
   start inspect spawn c false check (boot w)) /\
  (result (destroy inspect spawn c false check (boot w))
     <> Raises MustUseForceError ->
   destroy inspect spawn c true check (boot w) =
   destroy inspect spawn c false check (boot w)) /\
  (forall command bind force_run force,
      result (attach inspect spawn c command bind false false check (boot w))
        <> Raises MustUseForceError ->
      attach inspect spawn c command bind force_run force check (boot w) =
      attach inspect spawn c command bind false false check (boot w)).
Proof.
  destruct (probe inspect c w) as [[]|e] eqn:Hst;
    (split; [|split]); intros; revert H;
    open_ops; probe_with Hst; cbn [State_eqb negb andb orb];
    probe_with Hst; cbn; intros H;
    try reflexivity; try (exfalso; apply H; reflexivity).
Qed.

End Ownership.

(** Rewrites with what a supervised command is known to have done. *)
Ltac command_did Hrun Hrc :=
  unfold _systemd_run_stop, _systemd_run_start, _systemd_run_create,
    _systemd_run_destroy, _systemd_run_attach, _systemd_run;
  cbn in Hrun |- *; rewrite ?Hrun; cbn; rewrite ?Hrc; cbn.


Section ByState.

Context {W : Type}.
Variable inspect : list string -> W -> option CompletedProcess.
Variable spawn : bool -> list string -> W -> option CompletedProcess * W.

Local Abbreviation stop := (stop inspect spawn).
Local Abbreviation start := (start inspect spawn).
Local Abbreviation create := (create inspect spawn).
Local Abbreviation destroy := (destroy inspect spawn).
Local Abbreviation restart := (restart inspect spawn).
Local Abbreviation attach := (attach inspect spawn).

(** [stop] on a container probed [STOPPED] returns [False] and issues
    nothing; on one probed [RUNNING] it issues the stop command and only
    that, and returns [True] once the command has exited with status
    zero. *)
Theorem stop_by_state (c : Container) (w : W) :
  (probe inspect c w = Returns STOPPED ->
   forall check,
     result (stop c check (boot w)) = Returns false /\
     trace (stop c check (boot w)) = []) /\
  (probe inspect c w = Returns RUNNING ->
   trace (stop c false (boot w)) = [stop_command c] /\
   forall p w1,
     spawn false (argv (stop_command c)) w = (Some p, w1) ->
     returncode p = 0%Z ->
     result (stop c false (boot w)) = Returns true /\
     final (stop c false (boot w)) = w1).
Proof.
  split; intros Hst.
  - intros check. open_ops. probe_with Hst. split; reflexivity.
  - split.
    + open_ops. probe_with Hst. cbn.
      change (issued (snd (_systemd_run_stop spawn c (boot w)))) with
        (trace (_systemd_run_stop spawn c (boot w))).
      unfold _systemd_run_stop.
      destruct (_systemd_run spawn _ _ false (boot w)) as [[[]|e] s'] eqn:E;
        cbn; apply (f_equal trace) in E; rewrite systemd_run_trace in E;
        cbn in E; symmetry; exact E.
    + intros p w1 Hrun Hrc. open_ops. probe_with Hst.
      command_did Hrun Hrc. split; reflexivity.
Qed.



(** [destroy] on a container probed [STOPPED] does not stop it again:
    forced or not, the destroy command is the only command issued, and the
    call returns [True] once it has exited with status zero. *)
Theorem destroy_stopped (c : Container) (w : W) (force : bool) :
  probe inspect c w = Returns STOPPED ->
  forall p w1,
    spawn false (argv (destroy_command c)) w = (Some p, w1) ->
    trace (destroy c force false (boot w)) = [destroy_command c] /\
    (returncode p = 0%Z ->
     result (destroy c force false (boot w)) = Returns true /\
     final (destroy c force false (boot w)) = w1).
Proof.
  intros Hst p w1 Hrun. split.
  - open_ops. probe_with Hst. command_did Hrun Hrun.
    destruct (returncode p =? 0)%Z; reflexivity.
  - intros Hrc. open_ops. probe_with Hst. command_did Hrun Hrc.
    split; reflexivity.
Qed.


(** [attach] on a container probed [RUNNING] neither creates nor starts,
    whatever the force flags: the attach command is the only command
    issued, with the inner command after [--] when one is given.  When the
    standard streams are bound and the command exits with a non-zero
    status, the [SystemdRunError] raised carries no output at all. *)
Theorem attach_running (c : Container) (w : W)
        (command : option (list string)) (bind force_run force : bool) :
  probe inspect c w = Returns RUNNING ->
  forall p w1,
    spawn bind (argv (attach_command c command bind)) w = (Some p, w1) ->
    trace (attach c command bind force_run force false (boot w)) =
      [attach_command c command bind] /\
    (returncode p = 0%Z ->
     result (attach c command bind force_run force false (boot w)) =
       Returns true) /\
    (returncode p <> 0%Z -> bind = true ->
     result (attach c command bind force_run force false (boot w)) =
       Raises (SystemdRunError (argv (attach_command c command bind)) None)).
Proof.
  intros Hst p w1 Hrun. split; [|split].
  - open_ops. probe_with Hst. destruct command; command_did Hrun Hrun;
      destruct (returncode p =? 0)%Z; destruct bind; reflexivity.
  - intros Hrc. open_ops. probe_with Hst.
    destruct command; command_did Hrun Hrc; reflexivity.
  - intros Hrc ->. apply Z.eqb_neq in Hrc. open_ops. probe_with Hst.
    destruct command; command_did Hrun Hrc; reflexivity.
Qed.


End ByState.

(** ** Splitting and joining *)

Section SplitJoin.

Variable sep : ascii.

Lemma split_not_nil (s : string) : Str.split sep s <> [].
Proof.
  induction s as [|a r IH]; cbn; [discriminate|].
  destruct (Ascii.eqb a sep); [discriminate|].
  destruct (Str.split sep r); [contradiction|discriminate].
Qed.

(** No field of a split contains the separator. *)
Lemma split_fields_free (s : string) :
  Forall (fun f => occurs sep f = false) (Str.split sep s).
Proof.
  induction s as [|a r IH]; cbn.
  - apply List.Forall_cons; [reflexivity|apply List.Forall_nil].
  - destruct (Ascii.eqb a sep) eqn:E.
    + apply List.Forall_cons; [reflexivity|exact IH].
    + destruct (Str.split sep r) as [|f fs].
      { apply List.Forall_cons; [cbn; rewrite E; reflexivity|].
        apply List.Forall_nil. }
      inversion IH as [|? ? Hf Hfs]; subst.
      apply List.Forall_cons; [cbn; rewrite E; exact Hf|exact Hfs].
Qed.

Lemma split_free (x : string) :
  occurs sep x = false -> Str.split sep x = [x].
Proof.
  induction x as [|a r IH]; cbn [Str.split occurs]; [reflexivity|].
  intros H. apply orb_false_iff in H as [Ha Hr].
  rewrite Ha, (IH Hr). reflexivity.
Qed.

Lemma split_append (x rest : string) :
  occurs sep x = false ->
  Str.split sep (String.append x (String sep rest)) = x :: Str.split sep rest.
Proof.
  induction x as [|a r IH]; simpl.
  - intros _. rewrite Ascii.eqb_refl. reflexivity.
  - intros H. apply orb_false_iff in H as [Ha Hr].
    rewrite Ha, (IH Hr). reflexivity.
Qed.

Lemma split_join (l : list string) :
  l <> [] ->
  Forall (fun a => occurs sep a = false) l ->
  Str.split sep (Str.join (String sep EmptyString) l) = l.
Proof.
  induction l as [|x r IH]; [contradiction|].
  intros _ Hall. inversion Hall as [|? ? Hx Hr]; subst.
  destruct r as [|y r'].
  - cbn. apply split_free, Hx.
  - transitivity (x :: Str.split sep (Str.join (String sep EmptyString) (y :: r'))).
    + exact (split_append x (Str.join (String sep EmptyString) (y :: r')) Hx).
    + rewrite IH; [reflexivity|discriminate|exact Hr].
Qed.

End SplitJoin.

(** [pretty_command] can be split back into the argument vector at its
    spaces exactly when the vector is not empty and no argument contains a
    space: the arguments are joined as they are, without quoting. *)
Theorem pretty_command_splits_back (command : list string)
        (output : option string) :
  (exists text,
      pretty_command (SystemdRunError command output) = Some text /\
      Str.split " "%char text = command) <->
  command <> [] /\ Forall (fun a => occurs " "%char a = false) command.
Proof.
  cbn. split.
  - intros (text & [= <-] & Hsplit). split.
    + intros ->. cbn in Hsplit. discriminate.
    + rewrite <- Hsplit. apply split_fields_free.
  - intros [Hne Hall]. eexists. split; [reflexivity|].
    apply (split_join " "%char); assumption.
Qed.

(** ** What [info] makes of the lines of [lxc-info] *)

(** The key of a line: what precedes its first colon, lower-cased. *)
Definition line_key (line : string) : string :=
  match Str.split Str.colon line with
  | k :: _ => Str.lower k
  | [] => EmptyString
  end.

(** The value of a line: what stands between its first and its second
    colon, stripped and lower-cased; none when the line has no colon. *)
Definition line_value (line : string) : option string :=
  match Str.split Str.colon line with
  | _ :: f :: _ => Some (Str.lower (Str.strip f))
  | _ => None
  end.

(** The values of the lines whose key is [key], in the order of the lines. *)
Fixpoint values_of (key : string) (lines : list string) : list string :=
  match lines with
  | [] => []
  | l :: r =>
      match line_value l with
      | Some v => if String.eqb (line_key l) key then v :: values_of key r
                  else values_of key r
      | None => values_of key r
      end
  end.

(** How the values found for one key are stored. *)
Definition pack (vs : list string) : option Raw :=
  match vs with
  | [] => None
  | [v] => Some (One v)
  | _ => Some (Many vs)
  end.

Lemma pack_snoc (pre : list string) (v : string) (old : Raw) :
  pack pre = Some old ->
  pack (pre ++ [v]) =
    Some (Many (match old with Many l => l | One x => [x] end ++ [v])).
Proof.
  destruct pre as [|a [|b r]]; cbn; intros [= <-]; reflexivity.
Qed.

Lemma info_line_raises (acc : gmap string Raw) (line : string) :
  line_value line = None -> info_line acc line = Raises IndexError.
Proof.
  unfold line_value, info_line, getitem, and_then.
  destruct (Str.split Str.colon line) as [|k [|f r]] eqn:E; cbn.
  - reflexivity.
  - intros _. destruct (acc !! Str.lower k); reflexivity.
  - discriminate.
Qed.

Lemma info_line_returns (acc : gmap string Raw) (line v : string)
      (pre : string -> list string) :
  line_value line = Some v ->
  (forall k, acc !! k = pack (pre k)) ->
  exists acc',
    info_line acc line = Returns acc' /\
    forall k, acc' !! k =
      pack (pre k ++ if String.eqb (line_key line) k then [v] else []).
Proof.
  unfold line_value, line_key, info_line, getitem, and_then.
  destruct (Str.split Str.colon line) as [|k0 [|f r]]; cbn;
    try discriminate.
  intros [= <-] Hacc.
  destruct (acc !! Str.lower k0) as [old|] eqn:E.
  - eexists. split; [reflexivity|]. intros k.
    destruct (String.eqb (Str.lower k0) k) eqn:Ek.
    + apply String.eqb_eq in Ek. subst k. rewrite lookup_insert_eq.
      rewrite Hacc in E. symmetry. apply pack_snoc, E.
    + apply String.eqb_neq in Ek. rewrite lookup_insert_ne by exact Ek.
      rewrite app_nil_r. apply Hacc.
  - eexists. split; [reflexivity|]. intros k.
    destruct (String.eqb (Str.lower k0) k) eqn:Ek.
    + apply String.eqb_eq in Ek. subst k. rewrite lookup_insert_eq.
      rewrite Hacc in E. destruct (pre (Str.lower k0)); [reflexivity|].
      destruct l; discriminate.
    + apply String.eqb_neq in Ek. rewrite lookup_insert_ne by exact Ek.
      rewrite app_nil_r. apply Hacc.
Qed.

Lemma info_lines_returns (lines : list string) :
  forall (acc : gmap string Raw) (pre : string -> list string),
    Forall (fun l => line_value l <> None) lines ->
    (forall k, acc !! k = pack (pre k)) ->
    exists d,
      info_lines acc lines = Returns d /\
      forall k, d !! k = pack (pre k ++ values_of k lines).
Proof.
  induction lines as [|l r IH]; intros acc pre Hall Hacc.
  - exists acc. split; [reflexivity|]. intros k. cbn.
    rewrite app_nil_r. apply Hacc.
  - inversion Hall as [|? ? Hl Hr]; subst.
    destruct (line_value l) as [v|] eqn:Ev; [|contradiction].
    destruct (info_line_returns acc l v pre Ev Hacc) as (acc' & E1 & H1).
    destruct (IH acc' (fun k => pre k ++
                if String.eqb (line_key l) k then [v] else []) Hr H1)
      as (d & E2 & H2).
    exists d. split.
    + cbn. rewrite E1. cbn. exact E2.
    + intros k. rewrite H2. cbn. rewrite Ev.
      destruct (String.eqb (line_key l) k); rewrite <- app_assoc; reflexivity.
Qed.

Lemma info_lines_raises (lines : list string) :
  forall acc : gmap string Raw,
    Exists (fun l => line_value l = None) lines ->
    info_lines acc lines = Raises IndexError.
Proof.
  induction lines as [|l r IH]; intros acc Hex; [inversion Hex|].
  cbn. destruct (line_value l) as [v|] eqn:Ev.
  - inversion Hex as [? ? H|? ? H]; subst; [congruence|].
    unfold and_then.
    destruct (info_line acc l) as [acc'|e] eqn:E.
    + apply IH, H.
    + revert E. unfold info_line, getitem, and_then.
      destruct (Str.split Str.colon l) as [|k [|f r']]; cbn;
        try (destruct (acc !! Str.lower k)); congruence.
  - rewrite (info_line_raises acc l Ev). reflexivity.
Qed.

(** The lines [info] reads from the output of [lxc-info]. *)
Definition info_text (_out : string) : list string :=
  Str.split Str.newline (Str.strip _out).

(** The shape of a value in the dictionary returned. *)
Definition shown (vs : list string) : option InfoValue :=
  match vs with
  | [] => None
  | [v] => Some (Text v)
  | _ => Some (Texts vs)
  end.

Lemma shown_pack (vs : list string) : InfoValue_of_Raw <$> pack vs = shown vs.
Proof. destruct vs as [|a [|b r]]; reflexivity. Qed.

Lemma colon_or_not (lines : list string) :
  Forall (fun l => line_value l <> None) lines \/
  Exists (fun l => line_value l = None) lines.
Proof.
  induction lines as [|l r [IH|IH]].
  - left. apply List.Forall_nil.
  - destruct (line_value l) eqn:E.
    + left. apply List.Forall_cons; [congruence|exact IH].
    + right. apply List.Exists_cons_hd, E.
  - right. apply List.Exists_cons_tl, IH.
Qed.

(** What [info] returns when every line has a colon, by the number of
    lines whose key is [state]. *)
Lemma info_parse_with_colons (_out : string) :
  Forall (fun l => line_value l <> None) (info_text _out) ->
  exists d : gmap string Raw,
    (forall k, d !! k = pack (values_of k (info_text _out))) /\
    info_parse _out =
      match values_of "state" (info_text _out) with
      | [] => Returns (InfoValue_of_Raw <$> d)
      | [v] =>
          st <-- State_getitem (Str.upper v) ;;
          Returns (<["state" := Member st]> (InfoValue_of_Raw <$> d))
      | _ => Raises AttributeError
      end.
Proof.
  intros Hall.
  destruct (info_lines_returns (info_text _out) ∅ (fun _ => []) Hall)
    as (d & E & Hd).
  { intros k. apply lookup_empty. }
  exists d. split; [exact Hd|].
  unfold info_parse. fold (info_text _out). rewrite E. cbn.
  rewrite (Hd "state"). cbn.
  destruct (values_of "state" (info_text _out)) as [|a [|b r]]; reflexivity.
Qed.

Lemma info_collects_repeated_keys_aux (_out : string)
      (d : gmap string InfoValue) (key : string) :
  Forall (fun l => line_value l <> None) (info_text _out) ->
  info_parse _out = Returns d ->
  key <> "state" ->
  d !! key = shown (values_of key (info_text _out)).
Proof.
  intros Hall Hret Hkey.
  destruct (info_parse_with_colons _out Hall) as (raw & Hraw & E).
  rewrite E in Hret. rewrite <- shown_pack, <- Hraw.
  destruct (values_of "state" (info_text _out)) as [|a [|b r]].
  - injection Hret as <-. apply lookup_fmap.
  - destruct (State_getitem (Str.upper a)); cbn in Hret; [|discriminate].
    injection Hret as <-.
    rewrite lookup_insert_ne by congruence. apply lookup_fmap.
  - discriminate.
Qed.

Lemma info_missing_colon_aux (_out : string) :
  Exists (fun l => line_value l = None) (info_text _out) ->
  info_parse _out = Raises IndexError.
Proof.
  intros Hex. unfold info_parse. fold (info_text _out).
  rewrite (info_lines_raises _ ∅ Hex). reflexivity.
Qed.

(** When every line has a colon and [info] returns, each key other than
    [state] is bound as its lines say: to nothing when no line has the key,
    to the one value when one line has it, and to the list of the values in
    the order of the lines when several lines have it. *)
Theorem info_collects_repeated_keys (_out : string)
        (d : gmap string InfoValue) (key : string) :
  Forall (fun l => line_value l <> None) (info_text _out) ->
  info_parse _out = Returns d ->
  key <> "state" ->
  d !! key = shown (values_of key (info_text _out)).
Proof. apply info_collects_repeated_keys_aux. Qed.

(** [info] raises [IndexError] exactly when some line of the output has no
    colon; the empty output, whose only line is empty, is such a case. *)
Theorem info_missing_colon (_out : string) :
  info_parse _out = Raises IndexError <->
  Exists (fun l => line_value l = None) (info_text _out).
Proof.
  split.
  - intros Hraise. destruct (colon_or_not (info_text _out)) as [Hall|Hex];
      [|exact Hex].
    destruct (info_parse_with_colons _out Hall) as (raw & _ & E).
    rewrite E in Hraise.
    destruct (values_of "state" (info_text _out)) as [|a [|b r]];
      try discriminate.
    unfold State_getitem in Hraise.
    repeat (destruct (String.eqb _ _) in Hraise; [discriminate|]).
    discriminate.
  - apply info_missing_colon_aux.
Qed.

(** The entry [state] of the dictionary: with every line holding a colon,
    [info] leaves it out when no line has the key, raises [AttributeError]
    when two lines or more have it, and with exactly one such line binds it
    to the member of [State] the value names in upper case, raising
    [KeyError] when it names none. *)
Theorem info_state_entry (_out : string) :
  Forall (fun l => line_value l <> None) (info_text _out) ->
  match values_of "state" (info_text _out) with
  | [] => exists d, info_parse _out = Returns d /\ d !! "state" = None
  | [v] =>
      (forall st, Str.upper v = State_name st ->
                  exists d, info_parse _out = Returns d /\
                            d !! "state" = Some (Member st)) /\
      ((forall st, Str.upper v <> State_name st) ->
       info_parse _out = Raises (KeyError (Str.upper v)))
  | _ => info_parse _out = Raises AttributeError
  end.
Proof.
  intros Hall.
  destruct (info_parse_with_colons _out Hall) as (raw & Hraw & E).
  pose proof (Hraw "state") as Hstate.
  destruct (values_of "state" (info_text _out)) as [|a [|b r]].
  - eexists. split; [exact E|]. rewrite lookup_fmap, Hstate. reflexivity.
  - split.
    + intros st Hst. apply (proj1 (State_getitem_spec _)) in Hst.
      rewrite Hst in E. eexists. split; [exact E|].
      apply lookup_insert_eq.
    + intros Hno. rewrite (proj2 (State_getitem_spec _) Hno) in E. exact E.
  - exact E.
Qed.

Lemma lower_char_idem (c : ascii) :
  Str.lower_char (Str.lower_char c) = Str.lower_char c.
Proof. destruct c as [[] [] [] [] [] [] [] []]; reflexivity. Qed.

Lemma lower_idem (s : string) : Str.lower (Str.lower s) = Str.lower s.
Proof.
  unfold Str.lower. induction s as [|a r IH]; cbn; [reflexivity|].
  rewrite lower_char_idem, IH. reflexivity.
Qed.

Lemma line_key_lower (line : string) :
  Str.lower (line_key line) = line_key line.
Proof.
  unfold line_key. destruct (Str.split Str.colon line); [reflexivity|].
  apply lower_idem.
Qed.

Lemma values_of_key (key : string) (lines : list string) :
  values_of key lines <> [] -> exists l, In l lines /\ line_key l = key.
Proof.
  induction lines as [|l r IH]; cbn; [congruence|].
  destruct (line_value l); [destruct (String.eqb (line_key l) key) eqn:E|].
  - intros _. exists l. split; [left; reflexivity|].
    apply String.eqb_eq, E.
  - intros H. destruct (IH H) as (l' & Hin & Hk). exists l'. auto.
  - intros H. destruct (IH H) as (l' & Hin & Hk). exists l'. auto.
Qed.

(** The errors the parsing part of [info] can end with. *)
Lemma info_parse_errors (_out : string) (e : Exception) :
  info_parse _out = Raises e ->
  e = IndexError \/ e = AttributeError \/ exists key, e = KeyError key.
Proof.
  intros Hraise. destruct (colon_or_not (info_text _out)) as [Hall|Hex].
  - destruct (info_parse_with_colons _out Hall) as (raw & _ & E).
    rewrite E in Hraise.
    destruct (values_of "state" (info_text _out)) as [|a [|b r]].
    + discriminate.
    + unfold State_getitem in Hraise.
      repeat (destruct (String.eqb _ _) in Hraise; [discriminate|]).
      cbn in Hraise. injection Hraise as <-. right; right. eauto.
    + injection Hraise as <-. auto.
  - apply info_missing_colon_aux in Hex. rewrite Hex in Hraise.
    injection Hraise as <-. auto.
Qed.

(** Every key of the dictionary [info] returns is in lower case. *)
Theorem info_keys_are_lower_case (_out : string)
        (d : gmap string InfoValue) (key : string) (v : InfoValue) :
  info_parse _out = Returns d ->
  d !! key = Some v ->
  Str.lower key = key.
Proof.
  intros Hret Hkey.
  destruct (String.eqb key "state") eqn:Es;
    [apply String.eqb_eq in Es; subst; reflexivity|].
  apply String.eqb_neq in Es.
  destruct (colon_or_not (info_text _out)) as [Hall|Hex].
  - rewrite (info_collects_repeated_keys_aux _out d key Hall Hret Es) in Hkey.
    destruct (values_of_key key (info_text _out)) as (l & _ & <-).
    + intros E. rewrite E in Hkey. discriminate.
    + apply line_key_lower.
  - apply info_missing_colon_aux in Hex. congruence.
Qed.

(** ** The read-only operations on a host *)

Section Catalogue.

Context {W : Type}.
Variable inspect : list string -> W -> option CompletedProcess.

Local Abbreviation info_args c :=
  ["lxc-info"; "--state"; "--ips"; "--pid"; "--name"; name c].

Lemma info_reads (c : Container) (s : Sys W) :
  info inspect c s = (result (info inspect c (boot (host s))), s).
Proof.
  unfold result, info, bind, except_CalledProcessError, check_output, lift,
    ret, boot; cbn.
  destruct (inspect _ (host s)) as [p|]; [|reflexivity].
  destruct (returncode p =? 0)%Z; [|reflexivity].
  destruct (decode (stdout p)); reflexivity.
Qed.

(** What [info] answers, from what [lxc-info] did. *)
Lemma info_unfold (c : Container) (s : Sys W) :
  result (info inspect c s) =
  match inspect (info_args c) (host s) with
  | None => Raises (OSError (info_args c))
  | Some p =>
      if (returncode p =? 0)%Z then
        text <-- decode (stdout p) ;; info_parse text
      else Returns {["state" := Member ABSENT]}
  end.
Proof.
  unfold result, info, bind, except_CalledProcessError, check_output, lift,
    ret, and_then; cbn.
  destruct (inspect _ (host s)) as [p|]; [|reflexivity].
  destruct (returncode p =? 0)%Z; [|reflexivity].
  destruct (decode (stdout p)); reflexivity.
Qed.

(** [info] only reads: it issues no delegated command and leaves the host
    as it was.  When [lxc-info] exits with a non-zero status it returns the
    dictionary [{state: ABSENT}] and nothing else.  When [lxc-info] exits
    with status zero, an output that is not UTF-8 raises
    [UnicodeDecodeError], and an ASCII output gives what the lines of that
    output parse to.  [info] never ends with one of the three errors of
    [Container]: not with [SystemdRunError], nor with [MustUseForceError]
    or [MissingInformationsError]. *)
Theorem info_only_reads (c : Container) (s : Sys W) :
  snd (info inspect c s) = s /\
  (forall p, inspect (info_args c) (host s) = Some p ->
             returncode p <> 0%Z ->
             result (info inspect c s) =
               Returns {["state" := Member ABSENT]}) /\
  (forall p, inspect (info_args c) (host s) = Some p ->
             returncode p = 0%Z ->
             (Str.is_utf8 (stdout p) = false ->
              result (info inspect c s) = Raises UnicodeDecodeError) /\
             (Str.is_ascii (stdout p) = true ->
              result (info inspect c s) = info_parse (stdout p))) /\
  (forall e, result (info inspect c s) = Raises e ->
             e <> MissingInformationsError /\ e <> MustUseForceError /\
             forall command output, e <> SystemdRunError command output).
Proof.
  split; [rewrite info_reads; reflexivity|].
  rewrite info_unfold.
  destruct (inspect (info_args c) (host s)) as [p|]; cbn.
  - destruct (returncode p =? 0)%Z eqn:Hz; cbn.
    + apply Z.eqb_eq in Hz. split; [|split].
      * intros q [= <-] Hq. contradiction.
      * intros q [= <-] _. split.
        -- intros Hu. unfold decode. rewrite Hu. reflexivity.
        -- intros Ha. rewrite (decode_ascii _ Ha). reflexivity.
      * intros e. unfold decode.
        destruct (Str.is_utf8 (stdout p)); cbn.
        -- intros He. apply info_parse_errors in He.
           destruct He as [->|[->|[key ->]]]; repeat split; discriminate.
        -- intros [= <-]. repeat split; discriminate.
    + apply Z.eqb_neq in Hz. split; [reflexivity|].
      split; [intros q [= <-] Hq; contradiction|discriminate].
  - split; [discriminate|]. split; [discriminate|].
    intros e [= <-]. repeat split; discriminate.
Qed.

(** Unlike [state] and [info], [list_all] does not catch the failure of
    its tool: when [lxc-ls] exits with a non-zero status,
    [CalledProcessError] goes through [list_all] and through [list_info],
    which then asks about no container. *)
Theorem list_failure_goes_through (w : W) (p : CompletedProcess) :
  inspect ["lxc-ls"; "--line"] w = Some p ->
  returncode p <> 0%Z ->
  result (list_all inspect (boot w)) =
    Raises (CalledProcessError (returncode p) ["lxc-ls"; "--line"]
              (stdout p) None) /\
  result (list_info inspect (boot w)) =
    Raises (CalledProcessError (returncode p) ["lxc-ls"; "--line"]
              (stdout p) None).
Proof.
  intros Hls Hrc. apply Z.eqb_neq in Hrc.
  unfold result, list_info, list_all, bind, check_output, ret; cbn.
  rewrite Hls, Hrc. split; reflexivity.
Qed.


Lemma list_info_of_spec (cs : list Container) :
  forall (acc : gmap string (gmap string InfoValue)) (s : Sys W)
         (d : gmap string (gmap string InfoValue)) (s' : Sys W),
    list_info_of inspect cs acc s = (Returns d, s') ->
    s' = s /\
    (forall c, In c cs -> is_Some (d !! name c)) /\
    (forall k v, d !! k = Some v ->
                 acc !! k = Some v \/
                 exists c, In c cs /\ name c = k /\
                           result (info inspect c (boot (host s))) = Returns v).
Proof.
  induction cs as [|c r IH]; intros acc s d s' E.
  - cbn in E. unfold ret in E. injection E as <- <-.
    split; [reflexivity|]. split; [intros c []|]. auto.
  - cbn in E. unfold bind in E. rewrite info_reads in E.
    destruct (result (info inspect c (boot (host s)))) as [v|e] eqn:Ei;
      [|discriminate].
    destruct (IH _ _ _ _ E) as (-> & Hdom & Hval).
    split; [reflexivity|]. split.
    + intros c' [<-|Hin]; [|apply Hdom, Hin].
      destruct (d !! name c) as [x|] eqn:Ex; [eauto|].
      exfalso.
      assert (Hkeep : forall (cs : list Container) acc s d s',
                 list_info_of inspect cs acc s = (Returns d, s') ->
                 forall k, is_Some (acc !! k) -> is_Some (d !! k)).
      { clear. induction cs as [|c r IH]; intros acc s d s' E k Hk.
        - cbn in E. unfold ret in E. injection E as <- <-. exact Hk.
        - cbn in E. unfold bind in E.
          destruct (info inspect c s) as [[v|e] s1]; [|discriminate].
          apply (IH _ _ _ _ E).
          destruct (decide (name c = k)) as [->|Hn].
          + rewrite lookup_insert_eq. eauto.
          + rewrite lookup_insert_ne by exact Hn. exact Hk. }
      destruct (Hkeep _ _ _ _ _ E (name c)) as [y Hy].
      { rewrite lookup_insert_eq. eauto. }
      congruence.
    + intros k x Hk. destruct (Hval k x Hk) as [Hacc|(c' & Hin & Hn & Hi)].
      * destruct (decide (name c = k)) as [<-|Hne].
        -- rewrite lookup_insert_eq in Hacc. injection Hacc as <-.
           right. exists c. split; [left; reflexivity|]. auto.
        -- rewrite lookup_insert_ne in Hacc by exact Hne. auto.
      * right. exists c'. split; [right; exact Hin|]. auto.
Qed.

(** [list_info] only reads the host, and the dictionary it returns has an
    entry for every container [list_all] lists and for no other name; the
    entry of a name is what [info] returns for a container of that name. *)
Theorem list_info_entries (w : W)
        (d : gmap string (gmap string InfoValue)) :
  result (list_info inspect (boot w)) = Returns d ->
  final (list_info inspect (boot w)) = w /\
  trace (list_info inspect (boot w)) = [] /\
  exists cs,
    result (list_all inspect (boot w)) = Returns cs /\
    (forall c, In c cs -> is_Some (d !! name c)) /\
    (forall k v, d !! k = Some v ->
                 In k (List.map name cs) /\
                 result (info inspect (Container_named k) (boot w)) = Returns v).
Proof.
  unfold result, final, trace, list_info, bind.
  destruct (list_all inspect (boot w)) as [[cs|e] s] eqn:Eall; cbn;
    [|discriminate].
  assert (Hs : s = boot w).
  { revert Eall. unfold list_all, bind, check_output, ret. cbn.
    destruct (inspect _ w) as [p|]; [|discriminate].
    destruct (returncode p =? 0)%Z; [|discriminate].
    intros [= _ <-]. reflexivity. }
  subst s.
  assert (Hnamed : forall c, In c cs -> c = Container_named (name c)).
  { revert Eall. unfold list_all, bind, check_output, ret. cbn.
    destruct (inspect _ w) as [p|]; [|discriminate].
    destruct (returncode p =? 0)%Z; [|discriminate].
    intros [= <-] c Hin. apply in_map_iff in Hin as (n & <- & _).
    reflexivity. }
  destruct (list_info_of inspect cs ∅ (boot w)) as [[d'|e] s'] eqn:E; cbn;
    [|discriminate].
  intros [= ->].
  destruct (list_info_of_spec _ _ _ _ _ E) as (-> & Hdom & Hval).
  split; [reflexivity|]. split; [reflexivity|].
  exists cs. split; [reflexivity|]. split; [exact Hdom|].
  intros k v Hk. destruct (Hval k v Hk) as [Hacc|(c & Hin & Hn & Hi)].
  - rewrite lookup_empty in Hacc. discriminate.
  - split.
    + apply in_map_iff. exists c. auto.
    + rewrite <- Hn, <- (Hnamed c Hin). exact Hi.
Qed.

End Catalogue.

(** * The command-line handlers of [lxclib/cli/core.py]

    Each handler builds a [Container] from the parsed arguments, calls one
    operation and logs [SystemdRunError] at the critical level.  A handler
    returns nothing; what it logs is recorded as the formatted messages,
    oldest first.  [shlex.split], which [attach] applies to the command it
    is given, is a parameter of the handlers; [Shlex.split] below is the
    function of the standard library, for the examples. *)

Module Shlex.

(** The state of the lexer of [shlex] between two characters: between
    words, inside a word, inside quotes, or after an escape character,
    with the quotes to go back to if it was met inside quotes. *)
Inductive Mode :=
| Blank
| Word
| Quoted (q : ascii)
| Escaped (back : option ascii).

Definition whitespace (c : ascii) : bool :=
  let n := Str.code c in
  ((n =? 32) || (n =? 9) || (n =? 13) || (n =? 10))%N.

Definition backslash : ascii := ascii_of_N 92.
Definition single_quote : ascii := ascii_of_N 39.
Definition double_quote : ascii := ascii_of_N 34.

Definition is_quote (c : ascii) : bool :=
  Ascii.eqb c single_quote || Ascii.eqb c double_quote.

Definition nonempty (s : string) : bool :=
  match s with
  | EmptyString => false
  | String _ _ => true
  end.

Definition push (token : string) (c : ascii) : string :=
  String.append token (String c EmptyString).

(** The loop of [shlex.read_token] in POSIX mode, with
    [whitespace_split] set and no comment character, run over the whole
    text: [token] is the word being read, [quoted] whether quotes were met
    in it, [words] the words already given out, last first.  [None] is
    the [ValueError] of a quotation left open or of an escape character
    at the very end. *)
Fixpoint read (s : string) (mode : Mode) (token : string) (quoted : bool)
         (words : list string) : option (list string) :=
  match s with
  | EmptyString =>
      match mode with
      | Blank | Word =>
          if nonempty token || quoted then Some (rev (token :: words))
          else Some (rev words)
      | Quoted _ | Escaped _ => None
      end
  | String c r =>
      match mode with
      | Blank =>
          if whitespace c then
            if nonempty token || quoted
            then read r Blank EmptyString false (token :: words)
            else read r Blank token quoted words
          else if Ascii.eqb c backslash then
            read r (Escaped None) token quoted words
          else if is_quote c then read r (Quoted c) token quoted words
          else read r Word (String c EmptyString) quoted words
      | Word =>
          if whitespace c then
            if nonempty token || quoted
            then read r Blank EmptyString false (token :: words)
            else read r Blank token quoted words
          else if is_quote c then read r (Quoted c) token quoted words
          else if Ascii.eqb c backslash then
            read r (Escaped None) token quoted words
          else read r Word (push token c) quoted words
      | Quoted q =>
          if Ascii.eqb c q then read r Word token true words
          else if Ascii.eqb c backslash && Ascii.eqb q double_quote then
            read r (Escaped (Some q)) token true words
          else read r (Quoted q) (push token c) true words
      | Escaped back =>
          match back with
          | Some q =>
              if negb (Ascii.eqb c backslash) && negb (Ascii.eqb c q)
              then read r (Quoted q) (push (push token backslash) c)
                     quoted words
              else read r (Quoted q) (push token c) quoted words
          | None => read r Word (push token c) quoted words
          end
      end
  end.

(** [shlex.split(s)] *)
Definition split (s : string) : option (list string) :=
  read s Blank EmptyString false [].

End Shlex.

(** What a handler did: how it ended, the host and commands after it, and
    the messages it logged. *)
Record Ran (W : Type) := {
  outcome : Outcome unit;
  after : Sys W;
  logged : list string
}.
Arguments outcome {W} r.
Arguments after {W} r.
Arguments logged {W} r.

(** [%s] applied to the output of an error: the text, or [None]. *)
Definition str_of_output (o : option string) : string :=
  match o with
  | Some text => text
  | None => "None"
  end.

(** ["Command %s failed with %s" % (err.pretty_command, err.output)] *)
Definition failed_message (command : list string) (output : option string)
  : string :=
  String.append "Command "
    (String.append (Str.join " " command)
       (String.append " failed with " (str_of_output output))).

Definition force_message : string :=
  "Container cannot be destroyed, try using --force".

Section Cli.

Context {W : Type}.
Variable inspect : list string -> W -> option CompletedProcess.
Variable spawn : bool -> list string -> W -> option CompletedProcess * W.

(** [shlex.split(s)]: the words of the command line [s]; [None] when it
    raises [ValueError]. *)
Variable shlex_split : string -> option (list string).

(** [try: m  except Container.SystemdRunError as err: logger.critical(...)] *)
Definition logging_SystemdRunError {A : Type} (m : M W A) (s : Sys W) : Ran W :=
  match m s with
  | (Returns _, s') => {| outcome := Returns tt; after := s'; logged := [] |}
  | (Raises (SystemdRunError command output), s') =>
      {| outcome := Returns tt; after := s';
         logged := [failed_message command output] |}
  | (Raises e, s') => {| outcome := Raises e; after := s'; logged := [] |}
  end.

(** [attach_container]: the command is split into words inside the [try]
    block, before [attach] is entered. *)
Definition attach_container (name : string) (command : string)
           (no_bind force_run force : bool) : Sys W -> Ran W :=
  let container := Container_named name in
  logging_SystemdRunError
    (words <~ match shlex_split command with
              | Some words => ret words
              | None => raise ValueError
              end ;;
     attach inspect spawn container (Some words) (negb no_bind)
       force_run force false)%py.

(** [start_container] *)
Definition start_container (name : string) : Sys W -> Ran W :=
  let container := Container_named name in
  logging_SystemdRunError (start inspect spawn container false false).

(** [stop_container] *)
Definition stop_container (name : string) : Sys W -> Ran W :=
  let container := Container_named name in
  logging_SystemdRunError (stop inspect spawn container false).

(** [restart_container]: the two handlers one after the other; an
    exception that leaves the first one ends the call. *)
Definition restart_container (name : string) (s : Sys W) : Ran W :=
  let r1 := stop_container name s in
  match outcome r1 with
  | Returns _ =>
      let r2 := start_container name (after r1) in
      {| outcome := outcome r2; after := after r2;
         logged := logged r1 ++ logged r2 |}
  | Raises _ => r1
  end.

(** [destroy_container] *)
Definition destroy_container (name : string) (force : bool) (s : Sys W)
  : Ran W :=
  let container := Container_named name in
  match destroy inspect spawn container force false s with
  | (Returns _, s') => {| outcome := Returns tt; after := s'; logged := [] |}
  | (Raises (SystemdRunError command output), s') =>
      {| outcome := Returns tt; after := s';
         logged := [failed_message command output] |}
  | (Raises MustUseForceError, s') =>
      {| outcome := Returns tt; after := s'; logged := [force_message] |}
  | (Raises e, s') => {| outcome := Raises e; after := s'; logged := [] |}
  end.

(** [create_container]: the parser requires the three options. *)
Definition create_container (name distribution release architecture : string)
  : Sys W -> Ran W :=
  let container :=
    Build_Container name (Some distribution) (Some release)
      (Some architecture) in
  logging_SystemdRunError (create inspect spawn container false).

End Cli.

Ltac open_handlers :=
  unfold restart_container, attach_container, start_container,
    stop_container, destroy_container, create_container,
    logging_SystemdRunError.

(** The errors reading the state can end with. *)
Lemma probe_errors {W : Type}
      (inspect : list string -> W -> option CompletedProcess)
      (c : Container) (w : W) (e : Exception) :
  probe inspect c w = Raises e ->
  (exists args, e = OSError args) \/ e = IndexError \/
  (exists key, e = KeyError key) \/ e = UnicodeDecodeError.
Proof.
  rewrite probe_unfold.
  destruct (inspect _ w) as [p|]; [|intros [= <-]; eauto].
  destruct (returncode p =? 0)%Z; [|discriminate].
  unfold and_then, getitem, decode.
  destruct (Str.is_utf8 (stdout p)); [|intros [= <-]; auto].
  destruct (nth_error (Str.split Str.colon (stdout p)) 1) as [f|];
    [|intros [= <-]; auto].
  unfold State_getitem.
  repeat (destruct (String.eqb _ _); [discriminate|]).
  intros [= <-]. eauto.
Qed.

Section CliFacts.

Context {W : Type}.
Variable inspect : list string -> W -> option CompletedProcess.
Variable spawn : bool -> list string -> W -> option CompletedProcess * W.
Variable shlex_split : string -> option (list string).

Local Abbreviation attach_container :=
  (attach_container inspect spawn shlex_split).
Local Abbreviation start_container := (start_container inspect spawn).
Local Abbreviation stop_container := (stop_container inspect spawn).
Local Abbreviation restart_container := (restart_container inspect spawn).
Local Abbreviation destroy_container := (destroy_container inspect spawn).
Local Abbreviation create_container := (create_container inspect spawn).

Lemma logging_never_raises_SystemdRunError {A : Type} (m : M W A) (s : Sys W)
      (command : list string) (output : option string) :
  outcome (logging_SystemdRunError m s) <> Raises (SystemdRunError command output).
Proof.
  unfold logging_SystemdRunError.
  destruct (m s) as [[a|[]] s']; cbn; discriminate.
Qed.

(** No handler lets [SystemdRunError] through: the failure of a supervised
    command never ends [attach], [start], [stop], [restart], [destroy] or
    [create] of the command line with that exception. *)
Theorem handlers_keep_SystemdRunError (n : string) (s : Sys W)
        (command : list string) (output : option string) :
  let failed := Raises (SystemdRunError command output) in
  (forall inner no_bind force_run force,
      outcome (attach_container n inner no_bind force_run force s) <> failed) /\
  outcome (start_container n s) <> failed /\
  outcome (stop_container n s) <> failed /\
  outcome (restart_container n s) <> failed /\
  (forall force, outcome (destroy_container n force s) <> failed) /\
  (forall dist rel arch, outcome (create_container n dist rel arch s) <> failed).
Proof.
  cbn zeta. split; [|split; [|split; [|split; [|split]]]].
  - intros inner no_bind force_run force.
    apply logging_never_raises_SystemdRunError.
  - apply logging_never_raises_SystemdRunError.
  - apply logging_never_raises_SystemdRunError.
  - open_handlers.
    destruct (stop inspect spawn (Container_named n) false s)
      as [[a|[]] s1]; cbn; try discriminate;
      destruct (start inspect spawn (Container_named n) false false s1)
        as [[b|[]] s2]; cbn; discriminate.
  - intros force. open_handlers.
    destruct (destroy inspect spawn (Container_named n) force false s)
      as [[a|[]] s1]; cbn; discriminate.
  - intros dist rel arch. apply logging_never_raises_SystemdRunError.
Qed.


(** [destroy] of the command line never ends with [MustUseForceError]:
    on a running container and without [--force] it issues nothing, logs
    the advice to use [--force] and returns normally. *)
Theorem destroy_container_advises_force (n : string) (w : W) :
  (forall force,
      outcome (destroy_container n force (boot w)) <> Raises MustUseForceError) /\
  (probe inspect (Container_named n) w = Returns RUNNING ->
   outcome (destroy_container n false (boot w)) = Returns tt /\
   logged (destroy_container n false (boot w)) = [force_message] /\
   issued (after (destroy_container n false (boot w))) = [] /\
   host (after (destroy_container n false (boot w))) = w).
Proof.
  split.
  - intros force. open_handlers.
    destruct (destroy inspect spawn (Container_named n) force false (boot w))
      as [[a|[]] s1]; cbn; discriminate.
  - intros Hst. open_handlers. open_ops. probe_with Hst.
    repeat split; reflexivity.
Qed.

(** [start] of the command line cannot bring a missing container up: it
    calls [start] without force, so on a container probed [ABSENT] it
    issues nothing and [MustUseForceError] leaves the handler, which
    catches [SystemdRunError] only.  On a stopped container it issues the
    start command alone. *)
Theorem start_container_never_creates (n : string) (w : W) :
  (probe inspect (Container_named n) w = Returns ABSENT ->
   outcome (start_container n (boot w)) = Raises MustUseForceError /\
   issued (after (start_container n (boot w))) = [] /\
   logged (start_container n (boot w)) = []) /\
  (issued (after (start_container n (boot w))) = [] \/
   issued (after (start_container n (boot w))) =
     [start_command (Container_named n)]).
Proof.
  split.
  - intros Hst. open_handlers. open_ops. probe_with Hst.
    repeat split; reflexivity.
  - open_handlers. open_ops.
    destruct (probe inspect (Container_named n) w) as [[]|e] eqn:Hst;
      probe_with Hst; cbn; try (left; reflexivity);
      try (destruct e; cbn; left; reflexivity).
    all: unfold _systemd_run_create, _systemd_run_start, _systemd_run; cbn.
    all: destruct (spawn false _ w) as [[p|] w1]; cbn; [|right; reflexivity].
    all: destruct (returncode p =? 0)%Z; right; reflexivity.
Qed.

(** [attach] of the command line splits its command into words first:
    when [shlex.split] raises [ValueError], that error leaves the handler,
    which catches [SystemdRunError] only, and the host has not even been
    probed.  On a container probed [ABSENT] the handler always fails
    before anything is issued, whatever the options: with a command that
    does not split it ends with [ValueError]; otherwise the container is
    built from its name alone, so with [--force] the implied create raises
    [MissingInformationsError], and without it [MustUseForceError] is
    raised; none of them is caught by the handler. *)
Theorem attach_container_absent (n : string) (w : W)
        (command : string) (no_bind force_run force : bool) :
  (shlex_split command = None ->
   forall s,
     outcome (attach_container n command no_bind force_run force s) =
       Raises ValueError /\
     after (attach_container n command no_bind force_run force s) = s /\
     logged (attach_container n command no_bind force_run force s) = []) /\
  (probe inspect (Container_named n) w = Returns ABSENT ->
   outcome (attach_container n command no_bind force_run force (boot w)) =
     Raises (match shlex_split command with
             | None => ValueError
             | Some _ =>
                 if force then MissingInformationsError
                 else MustUseForceError
             end) /\
   issued (after (attach_container n command no_bind force_run force (boot w)))
     = [] /\
   logged (attach_container n command no_bind force_run force (boot w)) = []).
Proof.
  split.
  - intros Hsplit s. open_handlers. unfold bind, raise. rewrite Hsplit.
    repeat split; reflexivity.
  - intros Hst. open_handlers. unfold bind at 1.
    destruct (shlex_split command) as [words|]; unfold ret, raise;
      [|repeat split; reflexivity].
    open_ops.
    destruct force, force_run; probe_with Hst; repeat split; reflexivity.
Qed.


(** [create] of the command line always has its parameters, so it never
    ends with [MissingInformationsError]; on a container probed [ABSENT]
    it issues the create command with the distribution, release and
    architecture given, and on any other it issues nothing. *)
Theorem create_container_has_parameters (n dist rel arch : string) (w : W) :
  let c := Build_Container n (Some dist) (Some rel) (Some arch) in
  outcome (create_container n dist rel arch (boot w))
    <> Raises MissingInformationsError /\
  (probe inspect c w = Returns ABSENT ->
   issued (after (create_container n dist rel arch (boot w))) =
     [create_command c dist rel arch]) /\
  (forall st, probe inspect c w = Returns st -> st <> ABSENT ->
   issued (after (create_container n dist rel arch (boot w))) = [] /\
   outcome (create_container n dist rel arch (boot w)) = Returns tt).
Proof.
  intros c. subst c. split; [|split].
  - open_handlers. open_ops.
    destruct (probe inspect
                (Build_Container n (Some dist) (Some rel) (Some arch)) w)
      as [[]|e] eqn:Hst; probe_with Hst; cbn; try discriminate.
    + unfold _systemd_run_create, _systemd_run; cbn.
      destruct (spawn false _ w) as [[p|] w1]; cbn; [|discriminate].
      destruct (returncode p =? 0)%Z; cbn; discriminate.
    + destruct (probe_errors _ _ _ _ Hst) as [[args ->]|[->|[[key ->]| ->]]];
        cbn; discriminate.
  - intros Hst. open_handlers. open_ops. probe_with Hst.
    unfold _systemd_run_create, _systemd_run. cbn.
    destruct (spawn false _ w) as [[p|] w1]; cbn; [|reflexivity].
    destruct (returncode p =? 0)%Z; reflexivity.
  - intros st Hst Hne. open_handlers. open_ops. probe_with Hst.
    destruct st; [| |contradiction]; split; reflexivity.
Qed.

End CliFacts.

(** ** The further properties on concrete hosts *)

Module Cases.

(** A host on which every tool exits with status 2. *)
Definition broken_inspect (args : list string) (w : unit)
  : option CompletedProcess :=
  Some {| returncode := 2; stdout := ""; stderr := "cannot list" |}.


(** What [list_info] returns on the host with two IPv4 addresses. *)
Definition listed : gmap string (gmap string InfoValue) :=
  Eval vm_compute in
    match result (list_info Script.inspect (boot two_ipv4)) with
    | Returns d => d
    | Raises _ => ∅
    end.

(** What [info] returns on the host with two IPv4 addresses. *)
Definition described : gmap string InfoValue :=
  Eval vm_compute in
    match result (info Script.inspect c_bare (boot two_ipv4)) with
    | Returns d => d
    | Raises _ => ∅
    end.

(** The output of [lxc-info] on the host with two IPv4 addresses. *)
Definition two_ipv4_text : string :=
  lines ["State:          running"; "ip: 10.0.0.2"; "ip: 10.0.0.3"].

End Cases.

Import Cases.

Lemma false_means_nothing_done_witness :
  trace (run Script.inspect Script.spawn c_bare (OpStart false) false
           (boot running)) = [] /\
  final (run Script.inspect Script.spawn c_bare (OpStart false) false
           (boot running)) = running.
Proof.
  apply (false_means_nothing_done Script.inspect Script.spawn c_bare
           (OpStart false) false running).
  reflexivity.
Defined.

Lemma precondition_errors_come_first_witness :
  trace (run Script.inspect Script.spawn c_bare (OpDestroy false) false
           (boot running)) = [] /\
  final (run Script.inspect Script.spawn c_bare (OpDestroy false) false
           (boot running)) = running.
Proof.
  apply (precondition_errors_come_first Script.inspect Script.spawn c_bare
           (OpDestroy false) false running).
  left. reflexivity.
Defined.

Lemma force_only_lifts_MustUseForceError_witness :
  start Script.inspect Script.spawn c_bare true false (boot stopped) =
  start Script.inspect Script.spawn c_bare false false (boot stopped).
Proof.
  apply (proj1 (force_only_lifts_MustUseForceError Script.inspect
                  Script.spawn c_bare false stopped)).
  discriminate.
Defined.

Lemma stop_by_state_witness :
  (result (stop Script.inspect Script.spawn c_bare false (boot stopped)) =
     Returns false /\
   trace (stop Script.inspect Script.spawn c_bare false (boot stopped)) = []) /\
  trace (stop Box.inspect Box.spawn c_bare false (boot RUNNING)) =
    [stop_command c_bare] /\
  result (stop Box.inspect Box.spawn c_bare false (boot RUNNING)) =
    Returns true /\
  final (stop Box.inspect Box.spawn c_bare false (boot RUNNING)) = STOPPED.
Proof.
  split; [|split].
  - apply (proj1 (stop_by_state Script.inspect Script.spawn c_bare stopped)
             eq_refl false).
  - apply (proj2 (stop_by_state Box.inspect Box.spawn c_bare RUNNING) eq_refl).
  - apply (proj2 (proj2 (stop_by_state Box.inspect Box.spawn c_bare RUNNING)
                    eq_refl) Box.done_ STOPPED); reflexivity.
Defined.



Lemma destroy_stopped_witness :
  trace (destroy Box.inspect Box.spawn c_bare false false (boot STOPPED)) =
    [destroy_command c_bare] /\
  final (destroy Box.inspect Box.spawn c_bare false false (boot STOPPED)) =
    ABSENT.
Proof.
  pose proof (destroy_stopped Box.inspect Box.spawn c_bare STOPPED false
                eq_refl Box.done_ ABSENT eq_refl) as [Htr Hok].
  split; [exact Htr|]. apply Hok. reflexivity.
Defined.


Lemma attach_running_witness :
  trace (attach Box.inspect Box.spawn c_bare (Some ["ls"; "/"]) true false
           false false (boot RUNNING)) =
    [attach_command c_bare (Some ["ls"; "/"]) true] /\
  result (attach Script.inspect Script.spawn c_bare None true false false
            false (boot refusing)) =
    Raises (SystemdRunError (argv (attach_command c_bare None true)) None).
Proof.
  split.
  - apply (attach_running Box.inspect Box.spawn c_bare RUNNING
             (Some ["ls"; "/"]) true false false eq_refl Box.done_ RUNNING
             eq_refl).
  - apply (proj2 (proj2 (attach_running Script.inspect Script.spawn c_bare
                           refusing None true false false eq_refl
                           {| returncode := 1; stdout := "";
                              stderr := "no such container" |} refusing
                           eq_refl)));
      [discriminate|reflexivity].
Defined.


(** Deciding whether every line has a colon. *)
Definition has_colon (line : string) : bool :=
  match line_value line with
  | Some _ => true
  | None => false
  end.

Lemma all_have_colons (ls : list string) :
  forallb has_colon ls = true -> Forall (fun l => line_value l <> None) ls.
Proof.
  induction ls as [|l r IH]; cbn; intros H.
  - apply List.Forall_nil.
  - apply andb_true_iff in H as [Hl Hr].
    apply List.Forall_cons; [|apply IH, Hr].
    unfold has_colon in Hl. destruct (line_value l); congruence.
Qed.

Lemma some_lacks_colon (ls : list string) :
  existsb (fun l => negb (has_colon l)) ls = true ->
  Exists (fun l => line_value l = None) ls.
Proof.
  induction ls as [|l r IH]; cbn; intros H; [discriminate|].
  apply orb_true_iff in H as [Hl|Hr].
  - apply List.Exists_cons_hd. unfold has_colon in Hl.
    destruct (line_value l); [discriminate|reflexivity].
  - apply List.Exists_cons_tl, IH, Hr.
Qed.

Lemma none_has (c : ascii) (l : list string) :
  forallb (fun a => negb (occurs c a)) l = true ->
  Forall (fun a => occurs c a = false) l.
Proof.
  induction l as [|a r IH]; cbn; intros H.
  - apply List.Forall_nil.
  - apply andb_true_iff in H as [Ha Hr].
    apply List.Forall_cons; [|apply IH, Hr].
    destruct (occurs c a); [discriminate|reflexivity].
Qed.

Lemma pretty_command_splits_back_witness :
  (exists text,
      pretty_command (SystemdRunError (argv (stop_command c_bare)) None) =
        Some text /\
      Str.split " "%char text = argv (stop_command c_bare)) /\
  ~ (exists text,
        pretty_command (SystemdRunError ["sh"; "-c"; "echo done"] None) =
          Some text /\
        Str.split " "%char text = ["sh"; "-c"; "echo done"]).
Proof.
  split.
  - apply (proj2 (pretty_command_splits_back (argv (stop_command c_bare))
                    None)).
    split; [discriminate|].
    apply none_has. vm_compute. reflexivity.
  - intros H.
    apply (proj1 (pretty_command_splits_back ["sh"; "-c"; "echo done"] None))
      in H as [_ Hall].
    inversion Hall as [|? ? _ H1]; subst.
    inversion H1 as [|? ? _ H2]; subst.
    inversion H2 as [|? ? H3 _]; subst.
    discriminate H3.
Defined.

Lemma info_collects_repeated_keys_witness :
  described !! "ip" = Some (Texts ["10.0.0.2"; "10.0.0.3"]) /\
  described !! "pid" = None.
Proof.
  split.
  - apply (info_collects_repeated_keys two_ipv4_text described "ip").
    + apply all_have_colons. vm_compute. reflexivity.
    + vm_compute. reflexivity.
    + discriminate.
  - apply (info_collects_repeated_keys two_ipv4_text described "pid").
    + apply all_have_colons. vm_compute. reflexivity.
    + vm_compute. reflexivity.
    + discriminate.
Defined.

Lemma info_missing_colon_witness :
  info_parse "" = Raises IndexError /\
  info_parse (lines ["State:          running"; "no colon here"]) =
    Raises IndexError.
Proof.
  split.
  - apply (proj2 (info_missing_colon "")).
    apply some_lacks_colon. vm_compute. reflexivity.
  - apply (proj2 (info_missing_colon _)).
    apply some_lacks_colon. vm_compute. reflexivity.
Defined.

Lemma info_state_entry_witness :
  info_parse (lines ["State: RUNNING"; "State: STOPPED"]) =
    Raises AttributeError /\
  info_parse (lines ["State:          FROZEN"]) = Raises (KeyError "FROZEN") /\
  (exists d, info_parse (lines ["pid: 12"]) = Returns d /\
             d !! "state" = None).
Proof.
  split; [|split].
  - apply (info_state_entry (lines ["State: RUNNING"; "State: STOPPED"])).
    apply all_have_colons. vm_compute. reflexivity.
  - apply (proj2 (info_state_entry (lines ["State:          FROZEN"])
                    ltac:(apply all_have_colons; vm_compute; reflexivity))).
    intros []; vm_compute; discriminate.
  - apply (info_state_entry (lines ["pid: 12"])).
    apply all_have_colons. vm_compute. reflexivity.
Defined.

Lemma info_keys_are_lower_case_witness : Str.lower "ip" = "ip".
Proof.
  apply (info_keys_are_lower_case two_ipv4_text described "ip"
           (Texts ["10.0.0.2"; "10.0.0.3"])).
  - vm_compute. reflexivity.
  - vm_compute. reflexivity.
Defined.

Lemma info_only_reads_witness :
  result (info Script.inspect c_bare (boot absent)) =
    Returns {["state" := Member ABSENT]} /\
  result (info Script.inspect c_bare (boot garbled)) =
    Raises UnicodeDecodeError /\
  result (info Script.inspect c_bare (boot two_ipv4)) =
    info_parse two_ipv4_text.
Proof.
  split; [|split].
  - apply (proj1 (proj2 (info_only_reads Script.inspect c_bare (boot absent)))
             {| returncode := 1; stdout := "";
                stderr := "container does not exist" |});
      [reflexivity|discriminate].
  - apply (proj1 (proj2 (proj2
             (info_only_reads Script.inspect c_bare (boot garbled))))
             (Script.ok (String.append "State:          "
                           (String.append not_utf8 Script.nl)))
             eq_refl eq_refl).
    reflexivity.
  - apply (proj1 (proj2 (proj2
             (info_only_reads Script.inspect c_bare (boot two_ipv4))))
             (Script.ok two_ipv4_text) eq_refl eq_refl).
    vm_compute. reflexivity.
Defined.

Lemma list_failure_goes_through_witness :
  result (list_all broken_inspect (boot tt)) =
    Raises (CalledProcessError 2 ["lxc-ls"; "--line"] "" None) /\
  result (list_info broken_inspect (boot tt)) =
    Raises (CalledProcessError 2 ["lxc-ls"; "--line"] "" None).
Proof.
  apply (list_failure_goes_through broken_inspect tt
           {| returncode := 2; stdout := ""; stderr := "cannot list" |});
    [reflexivity|discriminate].
Defined.


Lemma list_info_entries_witness :
  final (list_info Script.inspect (boot two_ipv4)) = two_ipv4 /\
  trace (list_info Script.inspect (boot two_ipv4)) = [].
Proof.
  pose proof (list_info_entries Script.inspect two_ipv4 listed
                ltac:(vm_compute; reflexivity)) as [Hhost [Htrace _]].
  split; [exact Hhost|exact Htrace].
Defined.


Lemma destroy_container_advises_force_witness :
  outcome (destroy_container Script.inspect Script.spawn "c" false
             (boot running)) = Returns tt /\
  logged (destroy_container Script.inspect Script.spawn "c" false
            (boot running)) =
    ["Container cannot be destroyed, try using --force"].
Proof.
  pose proof (proj2 (destroy_container_advises_force Script.inspect
                       Script.spawn "c" running) eq_refl)
    as [Hout [Hlog _]].
  split; [exact Hout|exact Hlog].
Defined.

Lemma start_container_never_creates_witness :
  outcome (start_container Box.inspect Box.spawn "c" (boot ABSENT)) =
    Raises MustUseForceError /\
  issued (after (start_container Box.inspect Box.spawn "c" (boot ABSENT))) = [].
Proof.
  pose proof (proj1 (start_container_never_creates Box.inspect Box.spawn
                       "c" ABSENT) eq_refl) as [Hout [Hnone _]].
  split; [exact Hout|exact Hnone].
Defined.

Lemma attach_container_absent_witness :
  Shlex.split "bash -c 'ls" = None /\
  outcome (attach_container Box.inspect Box.spawn Shlex.split "c"
             "bash -c 'ls" false false true (boot RUNNING)) =
    Raises ValueError /\
  Shlex.split "bash -c ls" = Some ["bash"; "-c"; "ls"] /\
  outcome (attach_container Box.inspect Box.spawn Shlex.split "c"
             "bash -c ls" false false true (boot ABSENT)) =
    Raises MissingInformationsError /\
  issued (after (attach_container Box.inspect Box.spawn Shlex.split "c"
                   "bash -c ls" false false true (boot ABSENT))) = [].
Proof.
  pose proof (proj1 (attach_container_absent Box.inspect Box.spawn
                       Shlex.split "c" RUNNING "bash -c 'ls"
                       false false true)
                eq_refl (boot RUNNING)) as [Hbad _].
  pose proof (proj2 (attach_container_absent Box.inspect Box.spawn
                       Shlex.split "c" ABSENT "bash -c ls"
                       false false true)
                eq_refl) as [Hout [Hnone _]].
  split; [reflexivity|]. split; [exact Hbad|].
  split; [reflexivity|]. split; [exact Hout|exact Hnone].
Defined.


Lemma create_container_has_parameters_witness :
  issued (after (create_container Box.inspect Box.spawn "c" "debian"
                   "bookworm" "amd64" (boot ABSENT))) =
    [create_command c_full "debian" "bookworm" "amd64"] /\
  outcome (create_container Box.inspect Box.spawn "c" "debian" "bookworm"
             "amd64" (boot RUNNING)) = Returns tt.
Proof.
  split.
  - apply (proj1 (proj2 (create_container_has_parameters Box.inspect
                           Box.spawn "c" "debian" "bookworm" "amd64" ABSENT))
             eq_refl).
  - apply (proj2 (proj2 (create_container_has_parameters Box.inspect
                           Box.spawn "c" "debian" "bookworm" "amd64" RUNNING))
             RUNNING eq_refl).
    discriminate.
Defined.
